(** * The python-fastapi template of mITyFactory: item service, routes, health probes

    A shallow embedding of
    - [src/models/schemas.py]   (Item, ItemCreate, ItemList and their field constraints),
    - [src/services/example.py] (ExampleService, the in-memory CRUD service),
    - [src/api/routes.py]       (the REST handlers over the module-level service),
    - [src/api/health.py]       (the health, readiness and liveness probes),
    followed by the properties of the service that the specification states.

    Modelling decisions.
    - A Python [dict] keeps its keys in insertion order, and [list_items]
      exposes that order, so the dict is an association list with the
      operations of an ordered dictionary (module [PyDict]).
    - [uuid.uuid4()] and [datetime.utcnow()] are readings of the environment.
      Every method that takes a reading receives its value as an argument, so a
      run of the service is a list of calls, each with the readings it took.
    - A [datetime] is a point on the integer time line (microseconds).
    - The methods mutate [self._items] and write to the module-level logger;
      both live in the [world] record that a small state-and-exception monad
      threads through the calls. *)

From Stdlib Require Import List String ZArith Bool Arith Lia Sorted.
Import ListNotations.
Local Open Scope string_scope.
Local Open Scope list_scope.

Set Implicit Arguments.

(* ================================================================== *)
(** ** Python's ordered dictionary with string keys *)
(* ================================================================== *)

Module PyDict.

Definition t (V : Type) : Type := list (string * V).

Section Operations.
Context {V : Type}.

(** [{}] *)
Definition empty : t V := [].

(** [d.get(k)] *)
Fixpoint get (k : string) (d : t V) : option V :=
  match d with
  | [] => None
  | (k', v) :: d' => if String.eqb k k' then Some v else get k d'
  end.

(** [k in d] *)
Definition contains (k : string) (d : t V) : bool :=
  match get k d with Some _ => true | None => false end.

(** [d[k] = v]: an existing key keeps its position, a new key goes last. *)
Fixpoint setitem (k : string) (v : V) (d : t V) : t V :=
  match d with
  | [] => [(k, v)]
  | (k', v') :: d' =>
      if String.eqb k k' then (k', v) :: d' else (k', v') :: setitem k v d'
  end.

(** The dict after [del d[k]]: the entry of [k] is gone and the entries that
    remain keep their relative order. (The [KeyError] of a missing key is
    raised by [delitem] below.) *)
Fixpoint delitem (k : string) (d : t V) : t V :=
  match d with
  | [] => []
  | (k', v') :: d' =>
      if String.eqb k k' then d' else (k', v') :: delitem k d'
  end.

(** [list(d.keys())], [list(d.values())], [len(d)] *)
Definition keys (d : t V) : list string := map fst d.
Definition values (d : t V) : list V := map snd d.
Definition len (d : t V) : nat := List.length d.

(** The representation invariant of a dict: no key occurs twice. *)
Definition wf (d : t V) : Prop := NoDup (keys d).
End Operations.

End PyDict.

(* ================================================================== *)
(** ** Exceptions and results *)
(* ================================================================== *)

Inductive exn : Type :=
| ValidationError                                   (* pydantic *)
| KeyError (key : string)                           (* dict subscript *)
| HTTPException (status_code : nat) (detail : string).

Inductive result (A : Type) : Type :=
| Ok (a : A)
| Raise (e : exn).
Arguments Raise {A} e.

(* ================================================================== *)
(** ** src/models/schemas.py *)
(* ================================================================== *)

Definition datetime : Type := Z.

Module ItemCreate.
Record t : Type := mk {
  name : string;
  description : option string;
  tags : list string
}.
End ItemCreate.

Module Item.
Record t : Type := mk {
  id : string;
  name : string;
  description : option string;
  tags : list string;
  created_at : datetime;
  updated_at : option datetime
}.
End Item.

Module ItemList.
Record t : Type := mk {
  items : list Item.t;
  total : nat
}.
End ItemList.

Module Schemas.

(** [Field(..., min_length=1, max_length=100)]. A [string] is the sequence
    of the characters of the Python [str], one element per character, so
    [String.length] is Python's [len]. *)
Definition name_ok (name : string) : bool :=
  ((1 <=? String.length name) && (String.length name <=? 100))%nat.

(** [Field(None, max_length=500)]: the bound applies to a present value. *)
Definition description_ok (description : option string) : bool :=
  match description with
  | None => true
  | Some s => (String.length s <=? 500)%nat
  end.

(** The constraints of [ItemBase], shared by [ItemCreate] and [Item]. *)
Definition ItemBase_ok (name : string) (description : option string) : bool :=
  name_ok name && description_ok description.

(** A payload that passes the validation of [ItemCreate]. *)
Definition ItemCreate_ok (p : ItemCreate.t) : bool :=
  ItemBase_ok (ItemCreate.name p) (ItemCreate.description p).

(** The constructor call [Item(id=..., name=..., ...)]: pydantic validates
    the fields and raises [ValidationError] when a constraint fails. *)
Definition Item_init (id name : string) (description : option string)
    (tags : list string) (created_at : datetime)
    (updated_at : option datetime) : result Item.t :=
  if ItemBase_ok name description
  then Ok (Item.mk id name description tags created_at updated_at)
  else Raise ValidationError.

End Schemas.

(* ================================================================== *)
(** ** The world: the service's map and the log *)
(* ================================================================== *)

(** One constructor per [logger.info] call of the service. *)
Inductive log_entry : Type :=
| Log_list_items (count : nat)
| Log_get_item (item_id : string)
| Log_create_item (item_id name : string)
| Log_update_item (item_id : string)
| Log_delete_item (item_id : string).

Record world : Type := mkWorld {
  _items : PyDict.t Item.t;      (* ExampleService._items *)
  log : list log_entry           (* what the logger has received, oldest first *)
}.

(** State and exceptions. A raised exception keeps the world as it was at
    the point of the raise. *)
Definition M (A : Type) : Type := world -> result A * world.

Definition ret {A : Type} (a : A) : M A := fun w => (Ok a, w).

Definition raise {A : Type} (e : exn) : M A := fun w => (Raise e, w).

Definition bind {A B : Type} (m : M A) (k : A -> M B) : M B :=
  fun w =>
    match m w with
    | (Ok a, w') => k a w'
    | (Raise e, w') => (Raise e, w')
    end.

Definition lift {A : Type} (r : result A) : M A := fun w => (r, w).

Declare Scope py_scope.
Delimit Scope py_scope with py.
Notation "x <- m ;; k" := (bind m (fun x => k))
  (at level 61, m at next level, right associativity) : py_scope.
Notation "m ;; k" := (bind m (fun _ => k))
  (at level 61, right associativity) : py_scope.

(** [self._items] read, [self._items] mutated in place, [logger.info]. *)
Definition read_items : M (PyDict.t Item.t) := fun w => (Ok (_items w), w).

Definition modify_items (f : PyDict.t Item.t -> PyDict.t Item.t) : M unit :=
  fun w => (Ok tt, mkWorld (f (_items w)) (log w)).

Definition logger_info (e : log_entry) : M unit :=
  fun w => (Ok tt, mkWorld (_items w) (log w ++ [e])).

(** [self._items[k]]: raises [KeyError] on a missing key. *)
Definition getitem (k : string) : M Item.t :=
  fun w =>
    match PyDict.get k (_items w) with
    | Some v => (Ok v, w)
    | None => (Raise (KeyError k), w)
    end.

(** [self._items[k] = v] *)
Definition setitem (k : string) (v : Item.t) : M unit :=
  modify_items (PyDict.setitem k v).

(** [del self._items[k]]: raises [KeyError] on a missing key. *)
Definition delitem (k : string) : M unit :=
  fun w =>
    if PyDict.contains k (_items w)
    then modify_items (PyDict.delitem k) w
    else (Raise (KeyError k), w).

(* ================================================================== *)
(** ** src/services/example.py *)
(* ================================================================== *)

Module ExampleService.
Local Open Scope py_scope.

(** [__init__] *)
Definition init : world := mkWorld PyDict.empty [].

Definition list_items : M (list Item.t) :=
  items <- read_items ;;
  logger_info (Log_list_items (PyDict.len items)) ;;
  ret (PyDict.values items).

Definition get_item (item_id : string) : M (option Item.t) :=
  logger_info (Log_get_item item_id) ;;
  items <- read_items ;;
  ret (PyDict.get item_id items).

Definition create_item (uuid4 : string) (utcnow : datetime)
    (item_create : ItemCreate.t) : M Item.t :=
  let item_id := uuid4 in
  let now := utcnow in
  item <- lift (Schemas.Item_init item_id
                  (ItemCreate.name item_create)
                  (ItemCreate.description item_create)
                  (ItemCreate.tags item_create)
                  now
                  None) ;;
  setitem item_id item ;;
  logger_info (Log_create_item item_id (Item.name item)) ;;
  ret item.

Definition update_item (utcnow : datetime) (item_id : string)
    (item_update : ItemCreate.t) : M (option Item.t) :=
  items <- read_items ;;
  if negb (PyDict.contains item_id items) then ret None
  else
    existing <- getitem item_id ;;
    updated <- lift (Schemas.Item_init item_id
                       (ItemCreate.name item_update)
                       (ItemCreate.description item_update)
                       (ItemCreate.tags item_update)
                       (Item.created_at existing)
                       (Some utcnow)) ;;
    setitem item_id updated ;;
    logger_info (Log_update_item item_id) ;;
    ret (Some updated).

Definition delete_item (item_id : string) : M bool :=
  items <- read_items ;;
  if PyDict.contains item_id items then
    delitem item_id ;;
    logger_info (Log_delete_item item_id) ;;
    ret true
  else ret false.

End ExampleService.

(* ================================================================== *)
(** ** The framework around a handler *)
(* ================================================================== *)

(** What the client receives: the status code with the returned content, or
    the status code and detail of an error. *)
Inductive response (A : Type) : Type :=
| HttpOk (status_code : nat) (content : A)
| HttpError (status_code : nat) (detail : string).
Arguments HttpError {A} status_code detail.

(** A value returned by the handler is sent with the status code of the route
    decorator (200 unless [status_code=] says otherwise); an [HTTPException]
    is sent with its own code and detail; any other exception is a 500. *)
Definition respond {A : Type} (status_code : nat) (r : result A) : response A :=
  match r with
  | Ok a => HttpOk status_code a
  | Raise (HTTPException code detail) => HttpError code detail
  | Raise _ => HttpError 500 "Internal Server Error"
  end.

Definition serve {A : Type} (status_code : nat) (handler : M A)
    : world -> response A * world :=
  fun w => let (r, w') := handler w in (respond status_code r, w').

(* ================================================================== *)
(** ** src/api/routes.py *)
(* ================================================================== *)

Module Routes.
Local Open Scope py_scope.

(** The handlers. The module-level [service] is the one in the world. *)

Definition root : M (PyDict.t string) :=
  ret [("message", "Welcome to {{project_name}} API")].

Definition list_items : M ItemList.t :=
  items <- ExampleService.list_items ;;
  ret (ItemList.mk items (List.length items)).

Definition get_item (item_id : string) : M Item.t :=
  item <- ExampleService.get_item item_id ;;
  match item with
  | None => raise (HTTPException 404 "Item not found")
  | Some i => ret i
  end.

Definition create_item (uuid4 : string) (utcnow : datetime)
    (item : ItemCreate.t) : M Item.t :=
  ExampleService.create_item uuid4 utcnow item.

Definition delete_item (item_id : string) : M unit :=
  deleted <- ExampleService.delete_item item_id ;;
  if negb deleted then raise (HTTPException 404 "Item not found")
  else ret tt.

(** The routes as decorated. A [POST] body that fails the validation of
    [ItemCreate] is answered with 422 before the handler runs. *)

Definition GET_root := serve 200 root.
Definition GET_items := serve 200 list_items.
Definition GET_item (item_id : string) := serve 200 (get_item item_id).

Definition POST_items (uuid4 : string) (utcnow : datetime)
    (body : ItemCreate.t) : world -> response Item.t * world :=
  if Schemas.ItemCreate_ok body
  then serve 201 (create_item uuid4 utcnow body)
  else fun w => (HttpError 422 "Unprocessable Entity", w).

Definition DELETE_item (item_id : string) := serve 204 (delete_item item_id).

End Routes.

(* ================================================================== *)
(** ** src/api/health.py *)
(* ================================================================== *)

Module Health.

Record HealthResponse : Type := mkHealth {
  status : string;
  timestamp : string;
  version : string
}.

Record ReadinessResponse : Type := mkReadiness {
  ready : bool;
  checks : PyDict.t bool
}.

(** Python's builtin [all] on a list of booleans. *)
Definition py_all (bs : list bool) : bool := forallb (fun b => b) bs.

Section Handlers.
(** [datetime.isoformat], of the standard library. *)
Variable isoformat : datetime -> string.

Definition health_check (utcnow : datetime) : HealthResponse :=
  mkHealth "healthy" (isoformat utcnow) "0.1.0".

Definition GET_health (utcnow : datetime) : response HealthResponse :=
  respond 200 (Ok (health_check utcnow)).
End Handlers.

Definition readiness_check : ReadinessResponse :=
  let checks := PyDict.setitem "api" true PyDict.empty in
  mkReadiness (py_all (PyDict.values checks)) checks.

Definition GET_ready : response ReadinessResponse :=
  respond 200 (Ok readiness_check).

Definition liveness_check : PyDict.t string :=
  PyDict.setitem "status" "alive" PyDict.empty.

Definition GET_live : response (PyDict.t string) :=
  respond 200 (Ok liveness_check).

End Health.

(* ================================================================== *)
(** ** Runs of the service *)
(* ================================================================== *)

(** A call of a service method, with the environment readings it takes. *)
Inductive call : Type :=
| ListItems
| GetItem (item_id : string)
| CreateItem (uuid4 : string) (utcnow : datetime) (item_create : ItemCreate.t)
| UpdateItem (utcnow : datetime) (item_id : string) (item_update : ItemCreate.t)
| DeleteItem (item_id : string).

(** What the caller sees. *)
Inductive outcome : Type :=
| Listed (items : list Item.t)
| Got (item : option Item.t)
| Created (item : Item.t)
| Updated (item : option Item.t)
| Deleted (found : bool)
| Raised (e : exn).

Definition observe {A : Type} (f : A -> outcome) (m : M A)
    : world -> outcome * world :=
  fun w =>
    match m w with
    | (Ok a, w') => (f a, w')
    | (Raise e, w') => (Raised e, w')
    end.

Definition step (c : call) : world -> outcome * world :=
  match c with
  | ListItems => observe Listed ExampleService.list_items
  | GetItem item_id => observe Got (ExampleService.get_item item_id)
  | CreateItem uuid4 utcnow p =>
      observe Created (ExampleService.create_item uuid4 utcnow p)
  | UpdateItem utcnow item_id p =>
      observe Updated (ExampleService.update_item utcnow item_id p)
  | DeleteItem item_id => observe Deleted (ExampleService.delete_item item_id)
  end.

(** The world after a list of calls, and what the calls returned. *)
Fixpoint exec (cs : list call) (w : world) : world :=
  match cs with
  | [] => w
  | c :: cs' => exec cs' (snd (step c w))
  end.

Fixpoint outcomes (cs : list call) (w : world) : list outcome :=
  match cs with
  | [] => []
  | c :: cs' => fst (step c w) :: outcomes cs' (snd (step c w))
  end.

(** The state of the service after the calls [cs] on a fresh service. *)
Definition after (cs : list call) : world := exec cs ExampleService.init.

(** A state of the service: one that some run from [__init__] reaches. *)
Definition reachable (w : world) : Prop :=
  exists cs, w = after cs.

(** The invariant of the store: the dict is well formed and every item is
    filed under its own id. *)
Definition filed_under_id (kv : string * Item.t) : Prop :=
  Item.id (snd kv) = fst kv.

Definition store_ok (w : world) : Prop :=
  PyDict.wf (_items w) /\ Forall filed_under_id (_items w).

(** The item that [create_item] builds from a payload and its readings. *)
Definition created_item (uuid4 : string) (utcnow : datetime)
    (p : ItemCreate.t) : Item.t :=
  Item.mk uuid4 (ItemCreate.name p) (ItemCreate.description p)
    (ItemCreate.tags p) utcnow None.

(** The item that [update_item] builds from the stored one and a payload. *)
Definition updated_item (utcnow : datetime) (item_id : string)
    (p : ItemCreate.t) (existing : Item.t) : Item.t :=
  Item.mk item_id (ItemCreate.name p) (ItemCreate.description p)
    (ItemCreate.tags p) (Item.created_at existing) (Some utcnow).

(** One call, by cases: what it returns and the map it leaves. *)
Definition quiet (o : outcome) : Prop :=
  match o with
  | Created _ | Updated (Some _) | Deleted true => False
  | _ => True
  end.

Inductive step_effect (c : call) (w : world)
    : outcome -> PyDict.t Item.t -> Prop :=
| Eff_none o :
    quiet o ->
    match c with
    | ListItems | GetItem _ => True
    | CreateItem _ _ p => Schemas.ItemCreate_ok p = false
    | UpdateItem _ item_id p =>
        PyDict.get item_id (_items w) = None \/ Schemas.ItemCreate_ok p = false
    | DeleteItem item_id => PyDict.get item_id (_items w) = None
    end ->
    step_effect c w o (_items w)
| Eff_create uuid4 utcnow p :
    c = CreateItem uuid4 utcnow p ->
    Schemas.ItemCreate_ok p = true ->
    step_effect c w (Created (created_item uuid4 utcnow p))
      (PyDict.setitem uuid4 (created_item uuid4 utcnow p) (_items w))
| Eff_update utcnow item_id p existing :
    c = UpdateItem utcnow item_id p ->
    Schemas.ItemCreate_ok p = true ->
    PyDict.get item_id (_items w) = Some existing ->
    step_effect c w (Updated (Some (updated_item utcnow item_id p existing)))
      (PyDict.setitem item_id (updated_item utcnow item_id p existing)
         (_items w))
| Eff_delete item_id :
    c = DeleteItem item_id ->
    PyDict.contains item_id (_items w) = true ->
    step_effect c w (Deleted true) (PyDict.delitem item_id (_items w)).

(* ================================================================== *)
(** ** Quantities of a run that the specification speaks about *)
(* ================================================================== *)

(** The calls of a run paired with what they returned. *)
Definition events (cs : list call) (w : world) : list (call * outcome) :=
  combine cs (outcomes cs w).

(** Successful [create_item] calls and [delete_item] calls that returned
    true, counted on what the calls returned. *)
Definition is_created (o : outcome) : bool :=
  match o with Created _ => true | _ => false end.

Definition is_deleted (o : outcome) : bool :=
  match o with Deleted true => true | _ => false end.

Definition successful_creates (os : list outcome) : nat :=
  List.length (filter is_created os).

Definition successful_deletes (os : list outcome) : nat :=
  List.length (filter is_deleted os).

(** A successful [create_item] whose generated id is, at the time of the
    call, already a key of the map. *)
Definition overwrites (c : call) (w : world) : bool :=
  match c with
  | CreateItem uuid4 _ p =>
      Schemas.ItemCreate_ok p && PyDict.contains uuid4 (_items w)
  | _ => false
  end.

Fixpoint overwriting_creates (cs : list call) (w : world) : nat :=
  match cs with
  | [] => 0
  | c :: cs' =>
      (if overwrites c w then 1 else 0)
      + overwriting_creates cs' (snd (step c w))
  end.

(** The clock readings that a run takes, in order: [create_item] reads the
    clock on every call, [update_item] only once it has found the id. *)
Definition reading (c : call) (w : world) : list datetime :=
  match c with
  | CreateItem _ utcnow _ => [utcnow]
  | UpdateItem utcnow item_id _ =>
      if PyDict.contains item_id (_items w) then [utcnow] else []
  | _ => []
  end.

Fixpoint clock_readings (cs : list call) (w : world) : list datetime :=
  match cs with
  | [] => []
  | c :: cs' => reading c w ++ clock_readings cs' (snd (step c w))
  end.

(** Every timestamp of a stored item is one of the readings [R]. *)
Definition stamps_in (R : list datetime) (kv : string * Item.t) : Prop :=
  In (Item.created_at (snd kv)) R /\
  match Item.updated_at (snd kv) with
  | Some t => In t R
  | None => True
  end.

(** The position in the run of the call that inserted the key [k] into the
    map: the first successful [create_item] under [k] since [k] was last
    absent. A successful create under a key that is present leaves the
    position; a delete that returned true clears it. *)
Definition note_insertion (k : string) (i : nat) (ev : call * outcome)
    (acc : option nat) : option nat :=
  match ev with
  | (CreateItem uuid4 _ _, Created _) =>
      if String.eqb uuid4 k
      then match acc with None => Some i | Some j => Some j end
      else acc
  | (DeleteItem item_id, Deleted true) =>
      if String.eqb item_id k then None else acc
  | _ => acc
  end.

Fixpoint inserted_from (k : string) (i : nat) (acc : option nat)
    (evs : list (call * outcome)) : option nat :=
  match evs with
  | [] => acc
  | ev :: evs' => inserted_from k (S i) (note_insertion k i ev acc) evs'
  end.

Definition inserted_at (evs : list (call * outcome)) (k : string)
    : option nat :=
  inserted_from k 0 None evs.

(** Both positions are known and the first is the earlier one. *)
Definition earlier (a b : option nat) : Prop :=
  match a, b with
  | Some i, Some j => i < j
  | _, _ => False
  end.

Definition inserted_before (evs : list (call * outcome)) (a b : string)
    : Prop :=
  earlier (inserted_at evs a) (inserted_at evs b).

(** The keys of [w] are listed by increasing [pos], every position is below
    [i], and a key that is not in the map has no position. *)
Definition ordered_by (pos : string -> option nat) (i : nat) (w : world)
    : Prop :=
  StronglySorted (fun a b => earlier (pos a) (pos b)) (PyDict.keys (_items w))
  /\ Forall (fun k => exists j, pos k = Some j /\ j < i)
       (PyDict.keys (_items w))
  /\ (forall k, ~ In k (PyDict.keys (_items w)) -> pos k = None).

(** Whether the item now filed under [k] was the target of a successful
    [update_item] since the [create_item] that returned it. *)
Definition has_value {A : Type} (o : option A) : bool :=
  match o with Some _ => true | None => false end.

Definition note_update (k : string) (o : outcome) (acc : bool) : bool :=
  match o with
  | Created item => if String.eqb (Item.id item) k then false else acc
  | Updated (Some item) => if String.eqb (Item.id item) k then true else acc
  | _ => acc
  end.

Fixpoint updated_since (k : string) (acc : bool) (os : list outcome) : bool :=
  match os with
  | [] => acc
  | o :: os' => updated_since k (note_update k o acc) os'
  end.

Definition updated_since_created (os : list outcome) (k : string) : bool :=
  updated_since k false os.

(* ================================================================== *)
(** ** Further quantities of a call and of a run *)
(* ================================================================== *)

(** The status code that the client receives. *)
Definition status_of {A : Type} (r : response A) : nat :=
  match r with
  | HttpOk status_code _ => status_code
  | HttpError status_code _ => status_code
  end.

(** The calls in which the [Item] constructor is reached with a payload that
    fails the field constraints: every [create_item] with such a payload,
    and an [update_item] with such a payload once the id was found. *)
Definition rejects (c : call) (w : world) : bool :=
  match c with
  | CreateItem _ _ p => negb (Schemas.ItemCreate_ok p)
  | UpdateItem _ item_id p =>
      PyDict.contains item_id (_items w) && negb (Schemas.ItemCreate_ok p)
  | _ => false
  end.

(** The outcomes of the calls that reach their [logger.info] line. *)
Definition logs (o : outcome) : bool :=
  match o with
  | Raised _ | Updated None | Deleted false => false
  | _ => true
  end.

(** The clock reading of the last successful [create_item] under the id
    [k]. *)
Definition note_creation (k : string) (ev : call * outcome)
    (acc : option datetime) : option datetime :=
  match ev with
  | (CreateItem uuid4 utcnow _, Created _) =>
      if String.eqb uuid4 k then Some utcnow else acc
  | _ => acc
  end.

Fixpoint creation_from (k : string) (acc : option datetime)
    (evs : list (call * outcome)) : option datetime :=
  match evs with
  | [] => acc
  | ev :: evs' => creation_from k (note_creation k ev acc) evs'
  end.

Definition creation_reading (evs : list (call * outcome)) (k : string)
    : option datetime :=
  creation_from k None evs.

(** The item of an entry passes the field constraints of [ItemBase]. *)
Definition valid_entry (kv : string * Item.t) : Prop :=
  Schemas.ItemBase_ok (Item.name (snd kv)) (Item.description (snd kv)) = true.

(** The item of an entry was not updated before it was created. *)
Definition updated_after_created (kv : string * Item.t) : Prop :=
  match Item.updated_at (snd kv) with
  | Some t => (Item.created_at (snd kv) <= t)%Z
  | None => True
  end.

(* ================================================================== *)
(** ** Sample data *)
(* ================================================================== *)

(** The payload of the end-to-end scenario of the tests. *)
Definition test_item : ItemCreate.t :=
  ItemCreate.mk "Test Item" (Some "A test item") ["test"; "example"].

(** A payload that fails [min_length=1] on the name. *)
Definition nameless : ItemCreate.t := ItemCreate.mk "" None [].

(** The world after the test payload was created under the id ["id-1"]. *)
Definition one_item_world : world :=
  after [CreateItem "id-1" 1000%Z test_item].

(** The items that two creates of the test payload under the id ["id-1"]
    return, the first at time 1000 and the second at time 2000. *)
Definition first_item : Item.t := created_item "id-1" 1000%Z test_item.
Definition second_item : Item.t := created_item "id-1" 2000%Z test_item.

(** Two creates that generate the same id. *)
Definition colliding_creates : list call :=
  [CreateItem "id-1" 1000%Z test_item; CreateItem "id-1" 2000%Z test_item].

(** A create at time 1000 and an update of the item at time 3000. *)
Definition created_then_updated : list call :=
  [CreateItem "id-1" 1000%Z test_item; UpdateItem 3000%Z "id-1" test_item].


(* ================================================================== *)
(** ** Facts about the ordered dictionary *)
(* ================================================================== *)

Section DictFacts.
Context {V : Type}.
Implicit Types (d : PyDict.t V) (k : string) (v : V).

Lemma dict_get_setitem_eq d k v :
  PyDict.get k (PyDict.setitem k v d) = Some v.
Proof.
  induction d as [|[k' v'] d IH]; simpl.
  - now rewrite String.eqb_refl.
  - destruct (String.eqb k k') eqn:E; simpl; rewrite E; auto.
Qed.

Lemma dict_get_setitem_neq d k k' v :
  k <> k' -> PyDict.get k' (PyDict.setitem k v d) = PyDict.get k' d.
Proof.
  intros Hne. induction d as [|[k0 v0] d IH]; simpl.
  - apply not_eq_sym, String.eqb_neq in Hne. now rewrite Hne.
  - destruct (String.eqb k k0) eqn:E; simpl.
    + apply String.eqb_eq in E. subst k0.
      apply not_eq_sym, String.eqb_neq in Hne. now rewrite Hne.
    + now rewrite IH.
Qed.

Lemma dict_get_None d k :
  PyDict.get k d = None <-> ~ In k (PyDict.keys d).
Proof.
  induction d as [|[k' v'] d IH]; simpl.
  - tauto.
  - destruct (String.eqb k k') eqn:E.
    + apply String.eqb_eq in E. subst. split; [discriminate | tauto].
    + apply String.eqb_neq in E. rewrite IH. split; [|tauto].
      intros H [H'|H']; [congruence | tauto].
Qed.

Lemma dict_contains_In d k :
  PyDict.contains k d = true <-> In k (PyDict.keys d).
Proof.
  unfold PyDict.contains.
  destruct (PyDict.get k d) eqn:E.
  - split; [intros _ | reflexivity].
    destruct (in_dec string_dec k (PyDict.keys d)) as [H|H]; [exact H|].
    apply dict_get_None in H. congruence.
  - apply dict_get_None in E. split; [discriminate | tauto].
Qed.

Lemma dict_contains_false d k :
  PyDict.contains k d = false <-> PyDict.get k d = None.
Proof.
  unfold PyDict.contains. destruct (PyDict.get k d); split; congruence.
Qed.

Lemma dict_get_In d k v : PyDict.get k d = Some v -> In (k, v) d.
Proof.
  induction d as [|[k' v'] d IH]; simpl; [discriminate|].
  destruct (String.eqb k k') eqn:E.
  - apply String.eqb_eq in E. intros [= ->]. subst. now left.
  - auto.
Qed.

Lemma dict_In_get d k v :
  PyDict.wf d -> In (k, v) d -> PyDict.get k d = Some v.
Proof.
  unfold PyDict.wf.
  induction d as [|[k' v'] d IH]; simpl; [tauto|].
  intros Hnd [H|H].
  - injection H as -> ->. now rewrite String.eqb_refl.
  - inversion Hnd as [|? ? Hnotin Hnd']; subst.
    destruct (String.eqb k k') eqn:E; [|auto].
    apply String.eqb_eq in E. subst. exfalso. apply Hnotin.
    change k' with (fst (k', v)). now apply in_map.
Qed.

Lemma dict_keys_setitem d k v :
  PyDict.keys (PyDict.setitem k v d) =
  if PyDict.contains k d then PyDict.keys d else PyDict.keys d ++ [k].
Proof.
  unfold PyDict.contains.
  induction d as [|[k' v'] d IH]; simpl; [reflexivity|].
  destruct (String.eqb k k') eqn:E; simpl; [reflexivity|].
  rewrite IH. now destruct (PyDict.get k d).
Qed.

Lemma dict_len_setitem d k v :
  PyDict.len (PyDict.setitem k v d) =
  if PyDict.contains k d then PyDict.len d else S (PyDict.len d).
Proof.
  unfold PyDict.len.
  rewrite <- (length_map fst (PyDict.setitem k v d)), <- (length_map fst d).
  fold (PyDict.keys (PyDict.setitem k v d)). fold (PyDict.keys d).
  rewrite dict_keys_setitem.
  destruct (PyDict.contains k d); [reflexivity|].
  rewrite length_app. simpl. lia.
Qed.

Lemma dict_wf_setitem d k v :
  PyDict.wf d -> PyDict.wf (PyDict.setitem k v d).
Proof.
  unfold PyDict.wf. intros Hnd. rewrite dict_keys_setitem.
  destruct (PyDict.contains k d) eqn:E; [exact Hnd|].
  apply dict_contains_false, dict_get_None in E.
  apply NoDup_rev in Hnd. rewrite <- (rev_involutive (_ ++ _)).
  apply NoDup_rev. rewrite rev_app_distr. simpl.
  constructor; [now rewrite <- in_rev | exact Hnd].
Qed.

Lemma dict_Forall_setitem (P : string * V -> Prop) d k v :
  Forall P d -> P (k, v) -> Forall P (PyDict.setitem k v d).
Proof.
  intros Hd Hkv. induction d as [|[k' v'] d IH]; simpl.
  - now constructor.
  - inversion Hd; subst.
    destruct (String.eqb k k') eqn:E.
    + apply String.eqb_eq in E. subst. now constructor.
    + constructor; auto.
Qed.

Lemma dict_In_keys_delitem d k k' :
  In k' (PyDict.keys (PyDict.delitem k d)) -> In k' (PyDict.keys d).
Proof.
  induction d as [|[k0 v0] d IH]; simpl; [tauto|].
  destruct (String.eqb k k0); simpl; tauto.
Qed.

Lemma dict_wf_delitem d k :
  PyDict.wf d -> PyDict.wf (PyDict.delitem k d).
Proof.
  unfold PyDict.wf.
  induction d as [|[k0 v0] d IH]; simpl; [auto|].
  intros Hnd. inversion Hnd; subst.
  destruct (String.eqb k k0); simpl; [assumption|].
  constructor; [|auto].
  intros Hin. now apply dict_In_keys_delitem in Hin.
Qed.

Lemma dict_Forall_delitem (P : string * V -> Prop) d k :
  Forall P d -> Forall P (PyDict.delitem k d).
Proof.
  induction d as [|[k0 v0] d IH]; simpl; [auto|].
  intros Hd. inversion Hd; subst.
  destruct (String.eqb k k0); [assumption | constructor; auto].
Qed.

Lemma dict_get_delitem_eq d k :
  PyDict.wf d -> PyDict.get k (PyDict.delitem k d) = None.
Proof.
  unfold PyDict.wf.
  induction d as [|[k0 v0] d IH]; simpl; [reflexivity|].
  intros Hnd. inversion Hnd; subst.
  destruct (String.eqb k k0) eqn:E.
  - apply String.eqb_eq in E. subst. now apply dict_get_None.
  - simpl. rewrite E. auto.
Qed.

Lemma dict_get_delitem_neq d k k' :
  k <> k' -> PyDict.get k' (PyDict.delitem k d) = PyDict.get k' d.
Proof.
  intros Hne. induction d as [|[k0 v0] d IH]; simpl; [reflexivity|].
  destruct (String.eqb k k0) eqn:E.
  - apply String.eqb_eq in E. subst.
    apply not_eq_sym, String.eqb_neq in Hne. now rewrite Hne.
  - simpl. now rewrite IH.
Qed.

Lemma dict_len_delitem d k :
  PyDict.contains k d = true ->
  S (PyDict.len (PyDict.delitem k d)) = PyDict.len d.
Proof.
  unfold PyDict.contains, PyDict.len.
  induction d as [|[k0 v0] d IH]; simpl; [discriminate|].
  destruct (String.eqb k k0); simpl; [reflexivity|].
  intros H. now rewrite IH.
Qed.

Lemma dict_delitem_absent d k :
  PyDict.get k d = None -> PyDict.delitem k d = d.
Proof.
  induction d as [|[k0 v0] d IH]; simpl; [reflexivity|].
  destruct (String.eqb k k0); [discriminate|].
  intros H. now rewrite IH.
Qed.

Lemma dict_sorted_delitem (R : string -> string -> Prop) d k :
  StronglySorted R (PyDict.keys d) ->
  StronglySorted R (PyDict.keys (PyDict.delitem k d)).
Proof.
  induction d as [|[k0 v0] d IH]; simpl; [auto|].
  intros Hs. inversion Hs as [|? ? Hs' Hall]; subst.
  destruct (String.eqb k k0); simpl; [assumption|].
  constructor; [auto|].
  rewrite Forall_forall in *. intros x Hx.
  apply Hall. now apply dict_In_keys_delitem in Hx.
Qed.

End DictFacts.

(* ================================================================== *)
(** ** What each method of the service computes *)
(* ================================================================== *)

Ltac unfold_service :=
  unfold ExampleService.list_items, ExampleService.get_item,
    ExampleService.create_item, ExampleService.update_item,
    ExampleService.delete_item, Schemas.Item_init, Schemas.ItemCreate_ok,
    bind, ret, raise, lift, read_items, setitem, delitem, modify_items,
    logger_info, getitem in *.

Lemma list_items_eq w :
  ExampleService.list_items w =
  (Ok (PyDict.values (_items w)),
   mkWorld (_items w) (log w ++ [Log_list_items (PyDict.len (_items w))])).
Proof. reflexivity. Qed.

Lemma get_item_eq item_id w :
  ExampleService.get_item item_id w =
  (Ok (PyDict.get item_id (_items w)),
   mkWorld (_items w) (log w ++ [Log_get_item item_id])).
Proof. reflexivity. Qed.

Lemma create_item_valid uuid4 utcnow p w :
  Schemas.ItemCreate_ok p = true ->
  ExampleService.create_item uuid4 utcnow p w =
  (Ok (created_item uuid4 utcnow p),
   mkWorld (PyDict.setitem uuid4 (created_item uuid4 utcnow p) (_items w))
           (log w ++ [Log_create_item uuid4 (ItemCreate.name p)])).
Proof. intros Hok. unfold_service. now rewrite Hok. Qed.

Lemma create_item_invalid uuid4 utcnow p w :
  Schemas.ItemCreate_ok p = false ->
  ExampleService.create_item uuid4 utcnow p w = (Raise ValidationError, w).
Proof. intros Hok. unfold_service. now rewrite Hok. Qed.

Lemma update_item_absent utcnow item_id p w :
  PyDict.get item_id (_items w) = None ->
  ExampleService.update_item utcnow item_id p w = (Ok None, w).
Proof.
  intros Habs. unfold_service. unfold PyDict.contains. now rewrite Habs.
Qed.

Lemma update_item_present utcnow item_id p w existing :
  PyDict.get item_id (_items w) = Some existing ->
  Schemas.ItemCreate_ok p = true ->
  ExampleService.update_item utcnow item_id p w =
  (Ok (Some (updated_item utcnow item_id p existing)),
   mkWorld (PyDict.setitem item_id (updated_item utcnow item_id p existing)
              (_items w))
           (log w ++ [Log_update_item item_id])).
Proof.
  intros Hget Hok. unfold_service. unfold PyDict.contains.
  rewrite Hget. simpl. rewrite Hget, Hok. reflexivity.
Qed.

Lemma update_item_invalid utcnow item_id p w existing :
  PyDict.get item_id (_items w) = Some existing ->
  Schemas.ItemCreate_ok p = false ->
  ExampleService.update_item utcnow item_id p w = (Raise ValidationError, w).
Proof.
  intros Hget Hok. unfold_service. unfold PyDict.contains.
  rewrite Hget. simpl. rewrite Hget, Hok. reflexivity.
Qed.

Lemma delete_item_present item_id w :
  PyDict.contains item_id (_items w) = true ->
  ExampleService.delete_item item_id w =
  (Ok true,
   mkWorld (PyDict.delitem item_id (_items w))
           (log w ++ [Log_delete_item item_id])).
Proof. intros Hin. unfold_service. rewrite Hin. simpl. now rewrite Hin. Qed.

Lemma delete_item_absent item_id w :
  PyDict.contains item_id (_items w) = false ->
  ExampleService.delete_item item_id w = (Ok false, w).
Proof. intros Hin. unfold_service. now rewrite Hin. Qed.

Lemma step_effect_holds c w :
  step_effect c w (fst (step c w)) (_items (snd (step c w))).
Proof.
  destruct c as [|item_id|uuid4 utcnow p|utcnow item_id p|item_id];
    unfold step, observe.
  - rewrite list_items_eq. simpl. now apply Eff_none.
  - rewrite get_item_eq. simpl. now apply Eff_none.
  - destruct (Schemas.ItemCreate_ok p) eqn:Hok.
    + rewrite create_item_valid by assumption. simpl. now eapply Eff_create.
    + rewrite create_item_invalid by assumption. simpl. now apply Eff_none.
  - destruct (PyDict.get item_id (_items w)) as [existing|] eqn:Hget.
    + destruct (Schemas.ItemCreate_ok p) eqn:Hok.
      * rewrite (update_item_present _ _ _ _ Hget Hok). simpl.
        now eapply Eff_update.
      * rewrite (update_item_invalid _ _ _ _ Hget Hok). simpl.
        apply Eff_none; [exact I | now right].
    + rewrite update_item_absent by assumption. simpl.
      apply Eff_none; [exact I | now left].
  - destruct (PyDict.contains item_id (_items w)) eqn:Hin.
    + rewrite delete_item_present by assumption. simpl. now eapply Eff_delete.
    + rewrite delete_item_absent by assumption. simpl.
      apply Eff_none; [exact I | now apply dict_contains_false].
Qed.

(** The store invariant holds after every call, hence in every service
    state. *)
Lemma step_store_ok c w : store_ok w -> store_ok (snd (step c w)).
Proof.
  intros [Hwf Hid]. unfold store_ok.
  destruct (step_effect_holds c w).
  - now split.
  - split; [now apply dict_wf_setitem|].
    now apply dict_Forall_setitem.
  - split; [now apply dict_wf_setitem|].
    now apply dict_Forall_setitem.
  - split; [now apply dict_wf_delitem | now apply dict_Forall_delitem].
Qed.

Lemma exec_store_ok cs : forall w, store_ok w -> store_ok (exec cs w).
Proof.
  induction cs as [|c cs IH]; simpl; intros w Hw; [assumption|].
  now apply IH, step_store_ok.
Qed.

Lemma init_store_ok : store_ok ExampleService.init.
Proof. split; [constructor | constructor]. Qed.

Lemma reachable_store_ok w : reachable w -> store_ok w.
Proof. intros [cs ->]. apply exec_store_ok, init_store_ok. Qed.


(** The end-to-end scenario of the specification, run on the routes: the
    empty listing, a create answered 201, the item fetched, the item
    deleted with 204, and the fetch answered 404. *)
Example end_to_end_scenario :
  exists w1 w2 w3 w4 w5 item,
    Routes.GET_items ExampleService.init
      = (HttpOk 200 (ItemList.mk [] 0), w1) /\
    Routes.POST_items "id-1" 1000%Z test_item w1 = (HttpOk 201 item, w2) /\
    Item.id item = "id-1" /\
    Item.created_at item = 1000%Z /\
    Item.updated_at item = None /\
    Routes.GET_item "id-1" w2 = (HttpOk 200 item, w3) /\
    Routes.DELETE_item "id-1" w3 = (HttpOk 204 tt, w4) /\
    Routes.GET_item "id-1" w4 = (HttpError 404 "Item not found", w5) /\
    Routes.DELETE_item "nonexistent" w5
      = (HttpError 404 "Item not found", w5).
Proof. do 6 eexists. repeat split. Qed.

(** A payload with an empty name is refused: by the route with 422 before
    the service is called, and by the service itself with the
    [ValidationError] of the [Item] constructor; the world stays. *)
Example empty_name_is_refused :
  Routes.POST_items "id-1" 1000%Z (ItemCreate.mk "" None [])
    ExampleService.init
    = (HttpError 422 "Unprocessable Entity", ExampleService.init) /\
  ExampleService.create_item "id-1" 1000%Z (ItemCreate.mk "" None [])
    ExampleService.init
    = (Raise ValidationError, ExampleService.init).
Proof. split; reflexivity. Qed.

(* ================================================================== *)
(** ** Create, get, delete: one call on one state *)
(* ================================================================== *)

(** C1. A valid payload is always accepted by [create_item]; the item it
    returns carries the payload's name, description and tags and no
    [updated_at], and [get_item] on the returned id, called on the world that
    [create_item] leaves, returns exactly that item. This holds in every
    store state, whatever the id and the clock reading. *)
Theorem create_then_get_roundtrip
    (uuid4 : string) (utcnow : datetime) (p : ItemCreate.t) (w : world) :
  Schemas.ItemCreate_ok p = true ->
  exists (i : Item.t) (w' : world),
    ExampleService.create_item uuid4 utcnow p w = (Ok i, w') /\
    Item.name i = ItemCreate.name p /\
    Item.description i = ItemCreate.description p /\
    Item.tags i = ItemCreate.tags p /\
    Item.updated_at i = None /\
    fst (ExampleService.get_item (Item.id i) w') = Ok (Some i).
Proof.
  intros Hok.
  exists (created_item uuid4 utcnow p). eexists.
  split; [now apply create_item_valid|].
  repeat split.
  rewrite get_item_eq. simpl. now rewrite dict_get_setitem_eq.
Qed.

Lemma create_then_get_roundtrip_witness :
  exists (i : Item.t) (w' : world),
    ExampleService.create_item "id-1" 1000%Z test_item ExampleService.init
      = (Ok i, w') /\
    Item.name i = ItemCreate.name test_item /\
    Item.description i = ItemCreate.description test_item /\
    Item.tags i = ItemCreate.tags test_item /\
    Item.updated_at i = None /\
    fst (ExampleService.get_item (Item.id i) w') = Ok (Some i).
Proof.
  apply (create_then_get_roundtrip "id-1" 1000%Z test_item ExampleService.init).
  reflexivity.
Defined.

(** C9. [get_item] and [list_items] leave the map as it is, for every store
    state and every id, present or not; their only effect is one log entry. *)
Theorem reads_leave_store_unchanged (w : world) (item_id : string) :
  _items (snd (ExampleService.get_item item_id w)) = _items w /\
  _items (snd (ExampleService.list_items w)) = _items w /\
  log (snd (ExampleService.get_item item_id w))
    = log w ++ [Log_get_item item_id] /\
  log (snd (ExampleService.list_items w))
    = log w ++ [Log_list_items (PyDict.len (_items w))].
Proof. rewrite get_item_eq, list_items_eq. simpl. auto. Qed.

(** C3. [delete_item] returns true exactly when the id is present. In that
    case the entry is removed and the other entries stay, [get_item] then
    reports not-found, a second delete returns false and changes nothing, and
    the DELETE route answers 204 with an empty body. When the id is absent,
    [delete_item] returns false and leaves the world as it is, and the route
    answers 404. *)
Theorem delete_item_spec (w : world) (item_id : string) :
  PyDict.wf (_items w) ->
  (fst (ExampleService.delete_item item_id w) = Ok true <->
   PyDict.contains item_id (_items w) = true) /\
  (PyDict.contains item_id (_items w) = true ->
   exists w',
     ExampleService.delete_item item_id w = (Ok true, w') /\
     _items w' = PyDict.delitem item_id (_items w) /\
     PyDict.contains item_id (_items w') = false /\
     (forall k, k <> item_id ->
        PyDict.get k (_items w') = PyDict.get k (_items w)) /\
     fst (ExampleService.get_item item_id w') = Ok None /\
     ExampleService.delete_item item_id w' = (Ok false, w') /\
     Routes.DELETE_item item_id w = (HttpOk 204 tt, w')) /\
  (PyDict.contains item_id (_items w) = false ->
   ExampleService.delete_item item_id w = (Ok false, w) /\
   Routes.DELETE_item item_id w = (HttpError 404 "Item not found", w)).
Proof.
  intros Hwf. split; [|split].
  - destruct (PyDict.contains item_id (_items w)) eqn:Hin.
    + rewrite delete_item_present by assumption. simpl. tauto.
    + rewrite delete_item_absent by assumption. simpl.
      split; [intros [=] | discriminate].
  - intros Hin. eexists. split; [now apply delete_item_present|].
    assert (Hgone : PyDict.get item_id (PyDict.delitem item_id (_items w)) = None)
      by now apply dict_get_delitem_eq.
    repeat split.
    + simpl. now apply dict_contains_false.
    + intros k Hk. simpl. apply dict_get_delitem_neq. congruence.
    + rewrite get_item_eq. simpl. now rewrite Hgone.
    + apply delete_item_absent. simpl. now apply dict_contains_false.
    + unfold Routes.DELETE_item, serve, Routes.delete_item, bind.
      now rewrite delete_item_present.
  - intros Hin. split; [now apply delete_item_absent|].
    unfold Routes.DELETE_item, serve, Routes.delete_item, bind.
    now rewrite delete_item_absent.
Qed.

Lemma delete_item_spec_witness :
  (exists w',
     ExampleService.delete_item "id-1" one_item_world = (Ok true, w') /\
     _items w' = PyDict.delitem "id-1" (_items one_item_world) /\
     PyDict.contains "id-1" (_items w') = false /\
     (forall k, k <> "id-1" ->
        PyDict.get k (_items w') = PyDict.get k (_items one_item_world)) /\
     fst (ExampleService.get_item "id-1" w') = Ok None /\
     ExampleService.delete_item "id-1" w' = (Ok false, w') /\
     Routes.DELETE_item "id-1" one_item_world = (HttpOk 204 tt, w')) /\
  (ExampleService.delete_item "nonexistent" one_item_world
     = (Ok false, one_item_world) /\
   Routes.DELETE_item "nonexistent" one_item_world
     = (HttpError 404 "Item not found", one_item_world)).
Proof.
  assert (Hwf : PyDict.wf (_items one_item_world)).
  { unfold PyDict.wf. simpl. constructor; [simpl; tauto | constructor]. }
  split.
  - apply (proj1 (proj2 (delete_item_spec one_item_world "id-1" Hwf))).
    reflexivity.
  - apply (proj2 (proj2 (delete_item_spec one_item_world "nonexistent" Hwf))).
    reflexivity.
Defined.

(* ================================================================== *)
(** ** Entries of a well-formed dictionary *)
(* ================================================================== *)

Section DictEntries.
Context {V : Type}.
Implicit Types (d : PyDict.t V) (k : string) (v : V).

Lemma dict_In_setitem d k v k' v' :
  PyDict.wf d ->
  In (k', v') (PyDict.setitem k v d) ->
  (k' = k /\ v' = v) \/ (k' <> k /\ In (k', v') d).
Proof.
  intros Hwf Hin.
  apply dict_In_get in Hin; [|now apply dict_wf_setitem].
  destruct (string_dec k k') as [<-|Hne].
  - rewrite dict_get_setitem_eq in Hin. injection Hin as <-. now left.
  - rewrite dict_get_setitem_neq in Hin by assumption.
    right. split; [congruence | now apply dict_get_In].
Qed.

Lemma dict_In_delitem d k k' v' :
  PyDict.wf d ->
  In (k', v') (PyDict.delitem k d) ->
  k' <> k /\ In (k', v') d.
Proof.
  intros Hwf Hin.
  apply dict_In_get in Hin; [|now apply dict_wf_delitem].
  destruct (string_dec k k') as [<-|Hne].
  - rewrite dict_get_delitem_eq in Hin by assumption. discriminate.
  - rewrite dict_get_delitem_neq in Hin by assumption.
    split; [congruence | now apply dict_get_In].
Qed.

Lemma dict_In_values d v :
  In v (PyDict.values d) -> exists k, In (k, v) d.
Proof.
  unfold PyDict.values. rewrite in_map_iff.
  intros [[k v0] [Heq Hin]]. simpl in Heq. subst. now exists k.
Qed.

End DictEntries.

Lemma ids_of_values_are_keys (d : PyDict.t Item.t) :
  Forall filed_under_id d -> map Item.id (PyDict.values d) = PyDict.keys d.
Proof.
  unfold PyDict.values, PyDict.keys, filed_under_id.
  induction 1 as [|[k v] d Hkv Hd IH]; simpl in *; [reflexivity|].
  now rewrite Hkv, IH.
Qed.

(* ================================================================== *)
(** ** A colliding id *)
(* ================================================================== *)

(** C10. [create_item] stores the new item under the generated id without
    looking whether that id is taken: for every world and every valid
    payload the call succeeds, the map after it is the map before it with
    the new item assigned to the id, and the log receives the usual entry.
    When the id was already the key of an item, the map keeps its size and
    its keys, and the old item is in the map no more (unless the new item is
    equal to it). *)
Theorem create_item_overwrites
    (w : world) (uuid4 : string) (utcnow : datetime) (p : ItemCreate.t) :
  Schemas.ItemCreate_ok p = true ->
  exists w',
    ExampleService.create_item uuid4 utcnow p w
      = (Ok (created_item uuid4 utcnow p), w') /\
    _items w' = PyDict.setitem uuid4 (created_item uuid4 utcnow p) (_items w) /\
    PyDict.get uuid4 (_items w') = Some (created_item uuid4 utcnow p) /\
    log w' = log w ++ [Log_create_item uuid4 (ItemCreate.name p)] /\
    (forall old,
       store_ok w ->
       PyDict.get uuid4 (_items w) = Some old ->
       PyDict.len (_items w') = PyDict.len (_items w) /\
       PyDict.keys (_items w') = PyDict.keys (_items w) /\
       (old <> created_item uuid4 utcnow p ->
        ~ In old (PyDict.values (_items w')))).
Proof.
  intros Hok. eexists. split; [now apply create_item_valid|]. simpl.
  split; [reflexivity|]. split; [apply dict_get_setitem_eq|].
  split; [reflexivity|].
  intros old [Hwf Hid] Hold.
  assert (Hin : PyDict.contains uuid4 (_items w) = true)
    by (unfold PyDict.contains; now rewrite Hold).
  rewrite dict_len_setitem, dict_keys_setitem, Hin.
  repeat split.
  intros Hne Hlost.
  apply dict_In_values in Hlost. destruct Hlost as [k Hk].
  apply dict_In_setitem in Hk; [|assumption].
  destruct Hk as [[_ Heq]|[Hk Hstill]]; [contradiction|].
  apply dict_get_In in Hold.
  rewrite Forall_forall in Hid.
  apply Hid in Hold. apply Hid in Hstill.
  unfold filed_under_id in *. simpl in *. congruence.
Qed.

Lemma create_item_overwrites_witness :
  exists w',
    ExampleService.create_item "id-1" 2000%Z test_item one_item_world
      = (Ok second_item, w') /\
    PyDict.get "id-1" (_items one_item_world) = Some first_item /\
    PyDict.get "id-1" (_items w') = Some second_item /\
    PyDict.len (_items w') = PyDict.len (_items one_item_world) /\
    ~ In first_item (PyDict.values (_items w')).
Proof.
  destruct (create_item_overwrites one_item_world "id-1" 2000%Z test_item
              eq_refl) as (w' & Hrun & _ & Hget & _ & Hold).
  assert (Hok : store_ok one_item_world).
  { apply reachable_store_ok. now exists [CreateItem "id-1" 1000%Z test_item]. }
  destruct (Hold first_item Hok eq_refl) as (Hlen & _ & Hlost).
  exists w'. repeat split; try assumption.
  apply Hlost. discriminate.
Defined.

(* ================================================================== *)
(** ** Ids and keys *)
(* ================================================================== *)

Lemma dict_incl_setitem_fresh {V : Type} (d : PyDict.t V) k v :
  PyDict.get k d = None -> incl d (PyDict.setitem k v d).
Proof.
  induction d as [|[k0 v0] d IH]; simpl; [intros _ kv []|].
  destruct (String.eqb k k0); [discriminate|].
  intros Hget kv [<-|Hin]; [now left | right; now apply IH].
Qed.

Lemma create_item_store_ok uuid4 utcnow p w :
  store_ok w ->
  store_ok (snd (ExampleService.create_item uuid4 utcnow p w)).
Proof.
  intros Hok.
  apply (step_store_ok (CreateItem uuid4 utcnow p)) in Hok.
  unfold step, observe in Hok.
  now destruct (ExampleService.create_item uuid4 utcnow p w) as [[?|?] ?].
Qed.

(** C5. After every list of list/get/create/update/delete calls from the
    empty store, every stored item is filed under its own id, no key occurs
    twice, and so the ids of the stored items are pairwise distinct. Every
    single call preserves this. A [create_item] whose generated id is not a
    key of the map preserves it and keeps every entry that was stored. *)
Theorem stored_ids_are_keys (cs : list call) :
  (Forall filed_under_id (_items (after cs)) /\
   NoDup (PyDict.keys (_items (after cs))) /\
   NoDup (map Item.id (PyDict.values (_items (after cs))))) /\
  (forall c w, store_ok w -> store_ok (snd (step c w))) /\
  (forall w uuid4 utcnow p,
     store_ok w ->
     PyDict.contains uuid4 (_items w) = false ->
     store_ok (snd (ExampleService.create_item uuid4 utcnow p w)) /\
     incl (_items w)
          (_items (snd (ExampleService.create_item uuid4 utcnow p w)))).
Proof.
  split; [|split].
  - destruct (exec_store_ok cs init_store_ok) as [Hwf Hid].
    repeat split; try assumption.
    now rewrite ids_of_values_are_keys.
  - intros c w. apply step_store_ok.
  - intros w uuid4 utcnow p Hok Hfresh.
    split; [now apply create_item_store_ok|].
    destruct (Schemas.ItemCreate_ok p) eqn:Hp.
    + rewrite create_item_valid by assumption. simpl.
      now apply dict_incl_setitem_fresh, dict_contains_false.
    + rewrite create_item_invalid by assumption. apply incl_refl.
Qed.

Lemma stored_ids_are_keys_witness :
  store_ok (snd (step (DeleteItem "id-1") one_item_world)) /\
  store_ok (snd (ExampleService.create_item "id-2" 2000%Z test_item
                   one_item_world)) /\
  incl (_items one_item_world)
       (_items (snd (ExampleService.create_item "id-2" 2000%Z test_item
                       one_item_world))).
Proof.
  assert (Hok : store_ok one_item_world).
  { split; [|repeat constructor].
    unfold PyDict.wf. simpl. constructor; [simpl; tauto | constructor]. }
  destruct (stored_ids_are_keys []) as (_ & Hstep & Hfresh).
  split.
  - exact (Hstep (DeleteItem "id-1") one_item_world Hok).
  - exact (Hfresh one_item_world "id-2" 2000%Z test_item Hok eq_refl).
Defined.

(* ================================================================== *)
(** ** Counting the items *)
(* ================================================================== *)

Lemma successful_creates_cons o os :
  successful_creates (o :: os)
  = (if is_created o then 1 else 0) + successful_creates os.
Proof. unfold successful_creates. simpl. now destruct (is_created o). Qed.

Lemma successful_deletes_cons o os :
  successful_deletes (o :: os)
  = (if is_deleted o then 1 else 0) + successful_deletes os.
Proof. unfold successful_deletes. simpl. now destruct (is_deleted o). Qed.

Lemma step_count c w :
  PyDict.len (_items (snd (step c w)))
  + (if is_deleted (fst (step c w)) then 1 else 0)
  + (if overwrites c w then 1 else 0)
  = PyDict.len (_items w) + (if is_created (fst (step c w)) then 1 else 0).
Proof.
  destruct (step_effect_holds c w)
    as [o Hq Hc|uuid4 utcnow p -> Hok|utcnow item_id p existing -> Hok Hget
       |item_id -> Hin].
  - assert (Hov : overwrites c w = false).
    { destruct c; simpl in *; try reflexivity. now rewrite Hc. }
    rewrite Hov.
    destruct o as [| | |[?|]|[|]|]; simpl in *; try contradiction; lia.
  - simpl. rewrite Hok, dict_len_setitem. simpl.
    destruct (PyDict.contains uuid4 (_items w)); lia.
  - simpl. rewrite dict_len_setitem.
    unfold PyDict.contains. rewrite Hget. lia.
  - simpl. apply dict_len_delitem in Hin. lia.
Qed.

Lemma exec_count cs : forall w,
  PyDict.len (_items (exec cs w))
  + successful_deletes (outcomes cs w)
  + overwriting_creates cs w
  = PyDict.len (_items w) + successful_creates (outcomes cs w).
Proof.
  induction cs as [|c cs IH]; intros w; simpl.
  - unfold successful_deletes, successful_creates. simpl. lia.
  - rewrite successful_creates_cons, successful_deletes_cons.
    specialize (IH (snd (step c w))).
    pose proof (step_count c w). lia.
Qed.

(** The claim of C4 as written fails when an id is generated twice: after
    two successful creates under one id and no delete, one item is listed,
    and GET /items reports a total of one. *)
Lemma count_differs_on_collision :
  exists items w',
    ExampleService.list_items (after colliding_creates) = (Ok items, w') /\
    fst (Routes.GET_items (after colliding_creates))
      = HttpOk 200 (ItemList.mk items 1) /\
    successful_creates (outcomes colliding_creates ExampleService.init) = 2 /\
    successful_deletes (outcomes colliding_creates ExampleService.init) = 0 /\
    List.length items
    <> successful_creates (outcomes colliding_creates ExampleService.init)
       - successful_deletes (outcomes colliding_creates ExampleService.init).
Proof. do 2 eexists. repeat split. discriminate. Qed.

(** C4, amended. After every list of calls from the empty store,
    [list_items] returns, and GET /items reports as [total], as many items
    as there were successful creates whose generated id was not already a
    key of the map, minus the deletes that returned true. In a run in which
    no create overwrote an entry this is the number of successful creates
    minus the number of successful deletes. *)
Theorem list_items_count (cs : list call) :
  exists items w',
    ExampleService.list_items (after cs) = (Ok items, w') /\
    fst (Routes.GET_items (after cs))
      = HttpOk 200 (ItemList.mk items (List.length items)) /\
    List.length items
    + successful_deletes (outcomes cs ExampleService.init)
    + overwriting_creates cs ExampleService.init
    = successful_creates (outcomes cs ExampleService.init) /\
    List.length items
    = successful_creates (outcomes cs ExampleService.init)
      - overwriting_creates cs ExampleService.init
      - successful_deletes (outcomes cs ExampleService.init).
Proof.
  do 2 eexists. split; [apply list_items_eq|].
  split; [reflexivity|].
  pose proof (exec_count cs ExampleService.init) as H.
  unfold after, PyDict.len, PyDict.values in *. rewrite length_map.
  simpl in H. lia.
Qed.

(* ================================================================== *)
(** ** The probes *)
(* ================================================================== *)

Lemma py_all_true (bs : list bool) :
  Health.py_all bs = true <-> Forall (fun b => b = true) bs.
Proof.
  unfold Health.py_all. rewrite forallb_forall, Forall_forall. tauto.
Qed.

(** C7. GET /health answers 200 with status "healthy" (and the formatted
    clock reading and version "0.1.0"), GET /live answers 200 with status
    "alive", and GET /ready answers 200 with the one check "api" = true and
    [ready] computed as Python's [all] of the check values, which is true
    exactly when every check is true. *)
Theorem probes_spec (isoformat : datetime -> string) (utcnow : datetime) :
  (exists r,
     Health.GET_health isoformat utcnow = HttpOk 200 r /\
     Health.status r = "healthy" /\
     Health.timestamp r = isoformat utcnow /\
     Health.version r = "0.1.0") /\
  (exists d,
     Health.GET_live = HttpOk 200 d /\
     PyDict.get "status" d = Some "alive") /\
  (exists r,
     Health.GET_ready = HttpOk 200 r /\
     Health.checks r = [("api", true)] /\
     Health.ready r = Health.py_all (PyDict.values (Health.checks r)) /\
     (Health.ready r = true <->
      Forall (fun b => b = true) (PyDict.values (Health.checks r)))).
Proof.
  split; [|split].
  - eexists. split; [reflexivity|]. now repeat split.
  - eexists. split; reflexivity.
  - eexists. split; [reflexivity|]. split; [reflexivity|].
    split; [reflexivity|]. apply py_all_true.
Qed.

(* ================================================================== *)
(** ** The update timestamp *)
(* ================================================================== *)

Lemma note_update_quiet k o acc : quiet o -> note_update k o acc = acc.
Proof. destruct o as [| | |[?|]| |]; simpl; tauto. Qed.

Lemma step_updated c w (acc : string -> bool) :
  store_ok w ->
  Forall (fun kv => has_value (Item.updated_at (snd kv)) = acc (fst kv))
    (_items w) ->
  Forall (fun kv => has_value (Item.updated_at (snd kv))
                    = note_update (fst kv) (fst (step c w)) (acc (fst kv)))
    (_items (snd (step c w))).
Proof.
  intros [Hwf _] Hacc. rewrite Forall_forall in Hacc.
  destruct (step_effect_holds c w)
    as [o Hq _|uuid4 utcnow p _ _|utcnow item_id p existing _ _ _|item_id _ _];
    apply Forall_forall; intros [k v] Hin.
  - rewrite note_update_quiet by assumption. now apply Hacc.
  - apply dict_In_setitem in Hin; [|assumption]. simpl.
    destruct Hin as [[-> ->]|[Hne Hin]].
    + now rewrite String.eqb_refl.
    + apply not_eq_sym, String.eqb_neq in Hne. rewrite Hne.
      now apply (Hacc (k, v)).
  - apply dict_In_setitem in Hin; [|assumption]. simpl.
    destruct Hin as [[-> ->]|[Hne Hin]].
    + now rewrite String.eqb_refl.
    + apply not_eq_sym, String.eqb_neq in Hne. rewrite Hne.
      now apply (Hacc (k, v)).
  - apply dict_In_delitem in Hin; [|assumption]. simpl.
    now apply (Hacc (k, v)).
Qed.

Lemma exec_updated cs : forall w (acc : string -> bool),
  store_ok w ->
  Forall (fun kv => has_value (Item.updated_at (snd kv)) = acc (fst kv))
    (_items w) ->
  Forall (fun kv => has_value (Item.updated_at (snd kv))
                    = updated_since (fst kv) (acc (fst kv)) (outcomes cs w))
    (_items (exec cs w)).
Proof.
  induction cs as [|c cs IH]; intros w acc Hok Hacc; simpl; [assumption|].
  apply (IH (snd (step c w))
            (fun k => note_update k (fst (step c w)) (acc k))).
  - now apply step_store_ok.
  - now apply step_updated.
Qed.

Lemma dict_incl_delitem {V : Type} (d : PyDict.t V) (k : string) :
  incl (PyDict.delitem k d) d.
Proof.
  induction d as [|[k0 v0] d IH]; simpl; [apply incl_refl|].
  destruct (String.eqb k k0).
  - apply incl_tl, incl_refl.
  - intros kv [<-|Hin]; [now left | right; now apply IH].
Qed.

(** C8. After every list of calls from the empty store, a stored item has
    an [updated_at] exactly when a successful [update_item] on its id came
    after the [create_item] that returned the item; so [updated_at] is
    absent exactly for the items never updated since they were created.
    Call by call: a successful [create_item] stores its item without
    [updated_at], a successful [update_item] stores its item with
    [updated_at] present, both leave the entries of the other keys, a call
    that fails or finds nothing leaves the world, and [get_item],
    [list_items] and [delete_item] change no entry that stays. *)
Theorem updated_at_tracks_updates (cs : list call) :
  Forall (fun kv => has_value (Item.updated_at (snd kv))
                    = updated_since_created
                        (outcomes cs ExampleService.init) (fst kv))
    (_items (after cs)) /\
  (forall w uuid4 utcnow p,
     match ExampleService.create_item uuid4 utcnow p w with
     | (Ok i, w') =>
         Item.updated_at i = None /\
         PyDict.get uuid4 (_items w') = Some i /\
         forall k, k = uuid4 \/
                   PyDict.get k (_items w') = PyDict.get k (_items w)
     | (Raise _, w') => w' = w
     end) /\
  (forall w utcnow item_id p,
     match ExampleService.update_item utcnow item_id p w with
     | (Ok (Some i), w') =>
         Item.updated_at i = Some utcnow /\
         PyDict.get item_id (_items w') = Some i /\
         forall k, k = item_id \/
                   PyDict.get k (_items w') = PyDict.get k (_items w)
     | (_, w') => w' = w
     end) /\
  (forall w item_id,
     _items (snd (ExampleService.get_item item_id w)) = _items w /\
     _items (snd (ExampleService.list_items w)) = _items w /\
     incl (_items (snd (ExampleService.delete_item item_id w))) (_items w)).
Proof.
  split; [|split; [|split]].
  - apply (exec_updated cs (fun _ => false) init_store_ok). constructor.
  - intros w uuid4 utcnow p.
    destruct (Schemas.ItemCreate_ok p) eqn:Hok.
    + rewrite create_item_valid by assumption. simpl.
      split; [reflexivity|]. split; [apply dict_get_setitem_eq|].
      intros k. destruct (string_dec k uuid4) as [->|Hne]; [now left|].
      right. apply dict_get_setitem_neq. congruence.
    + now rewrite create_item_invalid.
  - intros w utcnow item_id p.
    destruct (PyDict.get item_id (_items w)) as [existing|] eqn:Hget.
    + destruct (Schemas.ItemCreate_ok p) eqn:Hok.
      * rewrite (update_item_present _ _ _ _ Hget Hok). simpl.
        split; [reflexivity|]. split; [apply dict_get_setitem_eq|].
        intros k. destruct (string_dec k item_id) as [->|Hne]; [now left|].
        right. apply dict_get_setitem_neq. congruence.
      * now rewrite (update_item_invalid _ _ _ _ Hget Hok).
    + now rewrite update_item_absent.
  - intros w item_id. rewrite get_item_eq, list_items_eq. simpl.
    split; [reflexivity|]. split; [reflexivity|].
    destruct (PyDict.contains item_id (_items w)) eqn:Hin.
    + rewrite delete_item_present by assumption. apply dict_incl_delitem.
    + rewrite delete_item_absent by assumption. apply incl_refl.
Qed.

Lemma stamps_in_more R R' kv : stamps_in R kv -> stamps_in (R ++ R') kv.
Proof.
  unfold stamps_in. intros [Hc Hu]. split; [apply in_or_app; now left|].
  destruct (Item.updated_at (snd kv)); [apply in_or_app; now left | exact I].
Qed.

Lemma step_stamps c w R :
  Forall (stamps_in R) (_items w) ->
  Forall (stamps_in (R ++ reading c w)) (_items (snd (step c w))).
Proof.
  intros HR.
  assert (HR' : Forall (stamps_in (R ++ reading c w)) (_items w)).
  { eapply Forall_impl; [|exact HR]. intros kv. apply stamps_in_more. }
  destruct (step_effect_holds c w)
    as [o _ _|uuid4 utcnow p -> _|utcnow item_id p existing -> _ Hget
       |item_id _ _].
  - assumption.
  - apply dict_Forall_setitem; [assumption|].
    split; simpl; [apply in_or_app; right; now left | exact I].
  - apply dict_Forall_setitem; [assumption|].
    simpl. unfold PyDict.contains. rewrite Hget.
    apply dict_get_In in Hget. rewrite Forall_forall in HR.
    destruct (HR _ Hget) as [Hc _].
    split; simpl; apply in_or_app; [now left | right; now left].
  - now apply dict_Forall_delitem.
Qed.

Lemma exec_stamps cs : forall w R,
  Forall (stamps_in R) (_items w) ->
  Forall (stamps_in (R ++ clock_readings cs w)) (_items (exec cs w)).
Proof.
  induction cs as [|c cs IH]; intros w R HR; simpl.
  - now rewrite app_nil_r.
  - rewrite app_assoc. apply IH. now apply step_stamps.
Qed.

Lemma sorted_before_last (l : list Z) (x : Z) :
  StronglySorted Z.le (l ++ [x]) -> Forall (fun y => (y <= x)%Z) l.
Proof.
  induction l as [|a l IH]; simpl; intros Hs; [constructor|].
  inversion Hs as [|? ? Hs' Hall]; subst.
  constructor; [|auto].
  rewrite Forall_forall in Hall. apply Hall, in_or_app. right. now left.
Qed.

(** The claim of C2 as written fails when the clock is set back between two
    updates: an item updated at time 3000 and updated again when the clock
    reads 2000 gets an [updated_at] below the previous one. *)
Lemma update_item_after_clock_set_back :
  exists existing updated w' prev new,
    PyDict.get "id-1" (_items (after created_then_updated)) = Some existing /\
    ExampleService.update_item 2000%Z "id-1" test_item
      (after created_then_updated) = (Ok (Some updated), w') /\
    PyDict.get "id-1" (_items w') = Some updated /\
    Item.updated_at existing = Some prev /\
    Item.updated_at updated = Some new /\
    (new < prev)%Z.
Proof. do 5 eexists. repeat split. Qed.

(** C2, amended. In every state of the service: when the id is absent,
    [update_item] returns [None] and leaves the world as it is; when the id
    is present and the payload valid, it returns and stores an item with the
    id and [created_at] of the stored one, the name, description and tags of
    the payload, and [updated_at] set to the clock reading of the call; the
    other entries stay. That reading is at least the previous [updated_at]
    whenever the clock readings of the run, this one included, never
    decrease. *)
Theorem update_item_spec
    (cs : list call) (utcnow : datetime) (item_id : string)
    (p : ItemCreate.t) :
  (PyDict.get item_id (_items (after cs)) = None ->
   ExampleService.update_item utcnow item_id p (after cs)
     = (Ok None, after cs)) /\
  (forall existing,
     PyDict.get item_id (_items (after cs)) = Some existing ->
     Schemas.ItemCreate_ok p = true ->
     exists updated w',
       ExampleService.update_item utcnow item_id p (after cs)
         = (Ok (Some updated), w') /\
       PyDict.get item_id (_items w') = Some updated /\
       (forall k, k <> item_id ->
          PyDict.get k (_items w') = PyDict.get k (_items (after cs))) /\
       Item.id updated = Item.id existing /\
       Item.created_at updated = Item.created_at existing /\
       Item.name updated = ItemCreate.name p /\
       Item.description updated = ItemCreate.description p /\
       Item.tags updated = ItemCreate.tags p /\
       Item.updated_at updated = Some utcnow /\
       (StronglySorted Z.le
          (clock_readings cs ExampleService.init ++ [utcnow]) ->
        forall prev,
          Item.updated_at existing = Some prev -> (prev <= utcnow)%Z)).
Proof.
  split; [apply update_item_absent|].
  intros existing Hget Hok.
  exists (updated_item utcnow item_id p existing). eexists.
  split; [now apply update_item_present|]. simpl.
  split; [apply dict_get_setitem_eq|].
  split; [intros k Hk; apply dict_get_setitem_neq; congruence|].
  split.
  { destruct (exec_store_ok cs init_store_ok) as [_ Hid].
    rewrite Forall_forall in Hid.
    apply dict_get_In in Hget. now apply Hid in Hget. }
  do 5 (split; [reflexivity|]).
  intros Hmono prev Hprev.
  pose proof (exec_stamps cs ExampleService.init (R := [])
                (Forall_nil _)) as Hst.
  rewrite Forall_forall in Hst.
  apply dict_get_In in Hget. destruct (Hst _ Hget) as [_ Hu].
  simpl in Hu. rewrite Hprev in Hu.
  apply sorted_before_last in Hmono.
  rewrite Forall_forall in Hmono. now apply Hmono.
Qed.

Lemma update_item_spec_witness :
  ExampleService.update_item 4000%Z "nonexistent" test_item
    (after created_then_updated) = (Ok None, after created_then_updated) /\
  exists existing updated w',
    PyDict.get "id-1" (_items (after created_then_updated)) = Some existing /\
    ExampleService.update_item 4000%Z "id-1" test_item
      (after created_then_updated) = (Ok (Some updated), w') /\
    PyDict.get "id-1" (_items w') = Some updated /\
    Item.id updated = Item.id existing /\
    Item.created_at updated = Item.created_at existing /\
    Item.updated_at existing = Some 3000%Z /\
    Item.updated_at updated = Some 4000%Z /\
    (3000 <= 4000)%Z.
Proof.
  split.
  - apply (proj1 (update_item_spec created_then_updated 4000%Z "nonexistent"
                    test_item)).
    reflexivity.
  - destruct (proj2 (update_item_spec created_then_updated 4000%Z "id-1"
                       test_item)
                (updated_item 3000%Z "id-1" test_item first_item)
                eq_refl eq_refl)
      as (updated & w' & Hrun & Hget & _ & Hid & Hc & _ & _ & _ & Hu & Hle).
    exists (updated_item 3000%Z "id-1" test_item first_item), updated, w'.
    repeat split; try assumption.
    apply (Hle ltac:(simpl; repeat constructor; lia) 3000%Z eq_refl).
Defined.

(* ================================================================== *)
(** ** The order of the listing *)
(* ================================================================== *)

Section Insertion.
Implicit Types (pos : string -> option nat) (l : list string).

Lemma sorted_agree pos pos' l :
  (forall k, In k l -> pos' k = pos k) ->
  StronglySorted (fun a b => earlier (pos a) (pos b)) l ->
  StronglySorted (fun a b => earlier (pos' a) (pos' b)) l.
Proof.
  intros Hagree Hs. induction Hs as [|a l Hs IH Hall]; constructor.
  - apply IH. intros k Hk. apply Hagree. now right.
  - rewrite Forall_forall in *. intros b Hb.
    rewrite (Hagree a), (Hagree b); [auto | now right | now left].
Qed.

Lemma sorted_snoc (R : string -> string -> Prop) l x :
  StronglySorted R l -> Forall (fun a => R a x) l ->
  StronglySorted R (l ++ [x]).
Proof.
  intros Hs Hx. induction Hs as [|a l Hs IH Hall]; simpl.
  - repeat constructor.
  - inversion Hx; subst. constructor; [auto|].
    apply Forall_app. split; [assumption | now constructor].
Qed.

Lemma note_insertion_quiet k i c o acc :
  quiet o -> note_insertion k i (c, o) acc = acc.
Proof.
  destruct c, o as [| | |[?|]|[|]|]; simpl; tauto.
Qed.

Lemma bound_weaken pos i l :
  Forall (fun k => exists j, pos k = Some j /\ j < i) l ->
  Forall (fun k => exists j, pos k = Some j /\ j < S i) l.
Proof.
  apply Forall_impl. intros k (j & Hj & Hlt). exists j. split; [assumption|lia].
Qed.

Lemma step_ordered c w pos i :
  PyDict.wf (_items w) ->
  ordered_by pos i w ->
  ordered_by (fun k => note_insertion k i (c, fst (step c w)) (pos k))
    (S i) (snd (step c w)).
Proof.
  intros Hwf (Hs & Hb & Hout). unfold ordered_by.
  destruct (step_effect_holds c w)
    as [o Hq _|uuid4 utcnow p -> _|utcnow item_id p existing -> _ Hget
       |item_id -> Hin].
  - (* the map is as before and the call inserted or removed nothing *)
    split; [|split].
    + eapply sorted_agree; [|exact Hs].
      intros k _. now apply note_insertion_quiet.
    + apply bound_weaken in Hb. eapply Forall_impl; [|exact Hb].
      intros k Hk. now rewrite note_insertion_quiet.
    + intros k Hk. rewrite note_insertion_quiet by assumption. auto.
  - (* a successful create *)
    rewrite dict_keys_setitem. simpl.
    destruct (PyDict.contains uuid4 (_items w)) eqn:Hin.
    + (* the id is a key already: every position stays *)
      apply dict_contains_In in Hin.
      assert (Hsame : forall k,
                 (if String.eqb uuid4 k
                  then match pos k with None => Some i | Some j => Some j end
                  else pos k) = pos k).
      { intros k. destruct (String.eqb uuid4 k) eqn:E; [|reflexivity].
        apply String.eqb_eq in E. subst k.
        rewrite Forall_forall in Hb. destruct (Hb _ Hin) as (j & -> & _).
        reflexivity. }
      split; [|split].
      * eapply sorted_agree; [|exact Hs]. intros k _. apply Hsame.
      * apply bound_weaken in Hb. eapply Forall_impl; [|exact Hb].
        intros k Hk. now rewrite Hsame.
      * intros k Hk. rewrite Hsame. auto.
    + (* a new key: it goes last, with the position of this call *)
      apply dict_contains_false, dict_get_None in Hin.
      assert (Hold : forall k, In k (PyDict.keys (_items w)) ->
                 (if String.eqb uuid4 k
                  then match pos k with None => Some i | Some j => Some j end
                  else pos k) = pos k).
      { intros k Hk. destruct (String.eqb uuid4 k) eqn:E; [|reflexivity].
        apply String.eqb_eq in E. subst k. contradiction. }
      assert (Hnew : (if String.eqb uuid4 uuid4
                      then match pos uuid4 with
                           | None => Some i | Some j => Some j end
                      else pos uuid4) = Some i).
      { rewrite String.eqb_refl, (Hout _ Hin). reflexivity. }
      split; [|split].
      * apply sorted_snoc.
        -- eapply sorted_agree; [|exact Hs]. exact Hold.
        -- rewrite Forall_forall in *. intros k Hk.
           rewrite Hnew, (Hold _ Hk).
           destruct (Hb _ Hk) as (j & -> & Hlt). exact Hlt.
      * apply Forall_app. split.
        -- rewrite Forall_forall in *. intros k Hk. rewrite (Hold _ Hk).
           destruct (Hb _ Hk) as (j & Hj & Hlt). exists j. split; [auto|lia].
        -- constructor; [|constructor]. exists i. split; [exact Hnew | lia].
      * intros k Hk. rewrite in_app_iff in Hk. simpl in Hk.
        destruct (String.eqb uuid4 k) eqn:E.
        -- apply String.eqb_eq in E. tauto.
        -- apply Hout. tauto.
  - (* a successful update: same keys, same positions *)
    rewrite dict_keys_setitem. simpl.
    unfold PyDict.contains. rewrite Hget.
    split; [exact Hs | split; [now apply bound_weaken | exact Hout]].
  - (* a successful delete *)
    simpl.
    assert (Hgone : ~ In item_id (PyDict.keys (PyDict.delitem item_id (_items w)))).
    { apply dict_get_None. now apply dict_get_delitem_eq. }
    assert (Hkeep : forall k,
               In k (PyDict.keys (PyDict.delitem item_id (_items w))) ->
               (if String.eqb item_id k then None else pos k) = pos k).
    { intros k Hk. destruct (String.eqb item_id k) eqn:E; [|reflexivity].
      apply String.eqb_eq in E. subst k. contradiction. }
    split; [|split].
    + eapply sorted_agree; [exact Hkeep|]. now apply dict_sorted_delitem.
    + rewrite Forall_forall in *. intros k Hk. rewrite (Hkeep _ Hk).
      apply dict_In_keys_delitem in Hk.
      destruct (Hb _ Hk) as (j & Hj & Hlt). exists j. split; [auto|lia].
    + intros k Hk. destruct (String.eqb item_id k) eqn:E; [reflexivity|].
      apply Hout. intros Hin'. apply Hk.
      apply String.eqb_neq in E.
      destruct (PyDict.get k (PyDict.delitem item_id (_items w))) eqn:G.
      * apply dict_get_In in G.
        change k with (fst (k, t)). now apply in_map.
      * rewrite dict_get_delitem_neq in G by assumption.
        apply dict_get_None in G. contradiction.
Qed.

Lemma exec_ordered cs : forall w pos i,
  store_ok w ->
  ordered_by pos i w ->
  ordered_by (fun k => inserted_from k i (pos k) (events cs w))
    (i + List.length cs) (exec cs w).
Proof.
  induction cs as [|c cs IH]; intros w pos i Hok Hord; simpl.
  - now rewrite Nat.add_0_r.
  - rewrite Nat.add_succ_r.
    apply (IH (snd (step c w))
              (fun k => note_insertion k i (c, fst (step c w)) (pos k)) (S i)).
    + now apply step_store_ok.
    + apply step_ordered; [apply Hok | exact Hord].
Qed.

End Insertion.

Lemma update_item_keeps_keys utcnow item_id p w :
  PyDict.keys (_items (snd (ExampleService.update_item utcnow item_id p w)))
  = PyDict.keys (_items w).
Proof.
  destruct (PyDict.get item_id (_items w)) as [existing|] eqn:Hget.
  - destruct (Schemas.ItemCreate_ok p) eqn:Hok.
    + rewrite (update_item_present _ _ _ _ Hget Hok). simpl.
      rewrite dict_keys_setitem. unfold PyDict.contains. now rewrite Hget.
    + now rewrite (update_item_invalid _ _ _ _ Hget Hok).
  - now rewrite update_item_absent.
Qed.

Lemma update_item_store_ok utcnow item_id p w :
  store_ok w ->
  store_ok (snd (ExampleService.update_item utcnow item_id p w)).
Proof.
  intros Hok.
  apply (step_store_ok (UpdateItem utcnow item_id p)) in Hok.
  unfold step, observe in Hok.
  now destruct (ExampleService.update_item utcnow item_id p w) as [[?|?] ?].
Qed.

(** C6. After every list of calls from the empty store, [list_items]
    returns the stored items, one per entry of the map, in the order of the
    map; a key is in the map exactly when it has an insertion position, and
    the items come by strictly increasing position of the call that inserted
    their key. An [update_item], on any id and with any payload, leaves the
    ids of the listing and their order as they are, and a second
    [list_items] returns the same list. *)
Theorem list_items_in_insertion_order (cs : list call) :
  exists items w',
    ExampleService.list_items (after cs) = (Ok items, w') /\
    items = PyDict.values (_items (after cs)) /\
    map Item.id items = PyDict.keys (_items (after cs)) /\
    (forall k, PyDict.contains k (_items (after cs))
               = has_value (inserted_at (events cs ExampleService.init) k)) /\
    StronglySorted (inserted_before (events cs ExampleService.init))
      (map Item.id items) /\
    (forall utcnow item_id p,
       map Item.id
         (PyDict.values
            (_items (snd (ExampleService.update_item utcnow item_id p
                            (after cs)))))
       = map Item.id items) /\
    fst (ExampleService.list_items w') = Ok items.
Proof.
  pose proof (exec_store_ok cs init_store_ok) as Hok.
  assert (Hord : ordered_by (fun _ => None) 0 ExampleService.init).
  { split; [constructor | split; [constructor | reflexivity]]. }
  apply (exec_ordered cs init_store_ok) in Hord.
  destruct Hord as (Hs & Hb & Hout).
  fold (after cs) in Hok, Hs, Hb, Hout.
  do 2 eexists. split; [apply list_items_eq|].
  split; [reflexivity|].
  assert (Hids : map Item.id (PyDict.values (_items (after cs)))
                 = PyDict.keys (_items (after cs)))
    by (apply ids_of_values_are_keys, Hok).
  split; [exact Hids|].
  split.
  { intros k. unfold inserted_at.
    destruct (PyDict.contains k (_items (after cs))) eqn:Hin.
    - apply dict_contains_In in Hin. rewrite Forall_forall in Hb.
      now destruct (Hb _ Hin) as (j & -> & _).
    - apply dict_contains_false, dict_get_None in Hin.
      now rewrite (Hout _ Hin). }
  split; [rewrite Hids; exact Hs|].
  split; [|reflexivity].
  intros utcnow item_id p.
  rewrite Hids, ids_of_values_are_keys.
  - apply update_item_keeps_keys.
  - now apply update_item_store_ok.
Qed.

(* ================================================================== *)
(** ** The routes over the service *)
(* ================================================================== *)

Lemma GET_item_eq item_id w :
  Routes.GET_item item_id w
  = (match PyDict.get item_id (_items w) with
     | Some i => HttpOk 200 i
     | None => HttpError 404 "Item not found"
     end,
     mkWorld (_items w) (log w ++ [Log_get_item item_id])).
Proof.
  unfold Routes.GET_item, serve, Routes.get_item, bind.
  rewrite get_item_eq. now destruct (PyDict.get item_id (_items w)).
Qed.

Lemma listed_is_stored (d : PyDict.t Item.t) (item : Item.t) :
  PyDict.wf d -> Forall filed_under_id d ->
  In item (PyDict.values d) <-> PyDict.get (Item.id item) d = Some item.
Proof.
  intros Hwf Hid. split.
  - intros Hin. apply dict_In_values in Hin. destruct Hin as [k Hk].
    rewrite Forall_forall in Hid. pose proof (Hid _ Hk) as Hfiled.
    unfold filed_under_id in Hfiled. simpl in Hfiled. subst k.
    now apply dict_In_get.
  - intros Hget. apply dict_get_In in Hget.
    unfold PyDict.values. change item with (snd (Item.id item, item)).
    now apply in_map.
Qed.

(** X1. In every state of the service the two read routes agree: an item is
    in the listing of GET /items exactly when GET /items/{id} on its id
    answers 200 with that item, and GET /items/{id} answers 404 exactly for
    the ids of no listed item. *)
Theorem listing_and_fetch_agree (cs : list call) :
  exists items w',
    Routes.GET_items (after cs)
      = (HttpOk 200 (ItemList.mk items (List.length items)), w') /\
    (forall item,
       In item items <->
       fst (Routes.GET_item (Item.id item) w') = HttpOk 200 item) /\
    (forall item_id,
       ~ In item_id (map Item.id items) <->
       fst (Routes.GET_item item_id w') = HttpError 404 "Item not found").
Proof.
  destruct (exec_store_ok cs init_store_ok) as [Hwf Hid].
  fold (after cs) in Hwf, Hid.
  do 2 eexists. split.
  { unfold Routes.GET_items, serve, Routes.list_items, bind.
    rewrite list_items_eq. reflexivity. }
  split.
  - intros item. rewrite GET_item_eq. simpl.
    rewrite (listed_is_stored item Hwf Hid).
    destruct (PyDict.get (Item.id item) (_items (after cs))).
    + split; [intros [= ->]; reflexivity | intros [= ->]; reflexivity].
    + split; discriminate.
  - intros item_id. rewrite GET_item_eq. simpl.
    rewrite ids_of_values_are_keys by assumption.
    rewrite <- dict_get_None.
    destruct (PyDict.get item_id (_items (after cs))).
    + split; discriminate.
    + split; reflexivity.
Qed.

Lemma post_items_shape w uuid4 utcnow body :
  (exists item w',
     Routes.POST_items uuid4 utcnow body w = (HttpOk 201 item, w')) \/
  Routes.POST_items uuid4 utcnow body w
  = (HttpError 422 "Unprocessable Entity", w).
Proof.
  unfold Routes.POST_items.
  destruct (Schemas.ItemCreate_ok body) eqn:Hok; [left | now right].
  do 2 eexists. unfold serve, Routes.create_item.
  rewrite create_item_valid by assumption. reflexivity.
Qed.

(** X2. POST /items, in every world and for every body: a body that passes
    the constraints of [ItemCreate] is answered 201 with an item that has the
    generated id, the clock reading as [created_at], no [updated_at] and the
    fields of the body; the item is stored, GET /items/{id} on the generated
    id then answers 200 with it, and one log entry is written. A body that
    fails a constraint is answered 422 and the world stays as it is. *)
Theorem post_items_spec
    (w : world) (uuid4 : string) (utcnow : datetime) (body : ItemCreate.t) :
  if Schemas.ItemCreate_ok body
  then exists item w',
         Routes.POST_items uuid4 utcnow body w = (HttpOk 201 item, w') /\
         item = Item.mk uuid4 (ItemCreate.name body)
                  (ItemCreate.description body) (ItemCreate.tags body)
                  utcnow None /\
         _items w' = PyDict.setitem uuid4 item (_items w) /\
         log w' = log w ++ [Log_create_item uuid4 (ItemCreate.name body)] /\
         fst (Routes.GET_item uuid4 w') = HttpOk 200 item
  else Routes.POST_items uuid4 utcnow body w
       = (HttpError 422 "Unprocessable Entity", w).
Proof.
  unfold Routes.POST_items.
  destruct (Schemas.ItemCreate_ok body) eqn:Hok; [|reflexivity].
  do 2 eexists. split.
  { unfold serve, Routes.create_item.
    rewrite create_item_valid by assumption. reflexivity. }
  repeat split.
  rewrite GET_item_eq. simpl. now rewrite dict_get_setitem_eq.
Qed.

(** X3. No route answers 500, in any world and for any request: the root
    and GET /items answer 200, GET /items/{id} 200 or 404, POST /items 201 or
    422, and DELETE /items/{id} 204 or 404. *)
Theorem routes_status_codes
    (w : world) (item_id uuid4 : string) (utcnow : datetime)
    (body : ItemCreate.t) :
  status_of (fst (Routes.GET_root w)) = 200 /\
  status_of (fst (Routes.GET_items w)) = 200 /\
  In (status_of (fst (Routes.GET_item item_id w))) [200; 404] /\
  In (status_of (fst (Routes.POST_items uuid4 utcnow body w))) [201; 422] /\
  In (status_of (fst (Routes.DELETE_item item_id w))) [204; 404].
Proof.
  split; [reflexivity|]. split; [reflexivity|]. split; [|split].
  - rewrite GET_item_eq. simpl.
    destruct (PyDict.get item_id (_items w)); simpl; auto.
  - pose proof (post_items_shape w uuid4 utcnow body) as H.
    destruct H as [[item [w' ->]]| ->]; simpl; auto.
  - unfold Routes.DELETE_item, serve, Routes.delete_item, bind.
    destruct (PyDict.contains item_id (_items w)) eqn:Hin.
    + rewrite delete_item_present by assumption. simpl. auto.
    + rewrite delete_item_absent by assumption. simpl. auto.
Qed.

(* ================================================================== *)
(** ** Failing calls *)
(* ================================================================== *)

(** X4. The only exception that leaves a method of the service is the
    [ValidationError] of the [Item] constructor: a call raises exactly when
    it is a [create_item] with a payload that fails the field constraints,
    or an [update_item] with such a payload on an id that is present; the
    call then leaves the map and the log as they were. In particular no
    call raises [KeyError], and an [update_item] on an absent id returns
    [None] whatever the payload. *)
Theorem service_raises_only_validation (c : call) (w : world) :
  if rejects c w
  then step c w = (Raised ValidationError, w)
  else forall e, fst (step c w) <> Raised e.
Proof.
  destruct c as [|item_id|uuid4 utcnow p|utcnow item_id p|item_id];
    unfold rejects, step, observe.
  - rewrite list_items_eq. discriminate.
  - rewrite get_item_eq. discriminate.
  - destruct (Schemas.ItemCreate_ok p) eqn:Hok; simpl.
    + rewrite create_item_valid by assumption. discriminate.
    + now rewrite create_item_invalid.
  - unfold PyDict.contains.
    destruct (PyDict.get item_id (_items w)) as [existing|] eqn:Hget.
    + destruct (Schemas.ItemCreate_ok p) eqn:Hok; simpl.
      * rewrite (update_item_present _ _ _ _ Hget Hok). discriminate.
      * now rewrite (update_item_invalid _ _ _ _ Hget Hok).
    + simpl. rewrite update_item_absent by assumption. discriminate.
  - destruct (PyDict.contains item_id (_items w)) eqn:Hin.
    + rewrite delete_item_present by assumption. discriminate.
    + rewrite delete_item_absent by assumption. discriminate.
Qed.

(* ================================================================== *)
(** ** Invariants of the stored items *)
(* ================================================================== *)

(** A property of entries that every created and every updated item has is
    a property of all entries after any run. *)
Lemma exec_entries_invariant (P : string * Item.t -> Prop) :
  (forall uuid4 utcnow p,
     Schemas.ItemCreate_ok p = true -> P (uuid4, created_item uuid4 utcnow p)) ->
  (forall utcnow item_id p existing,
     Schemas.ItemCreate_ok p = true -> P (item_id, existing) ->
     P (item_id, updated_item utcnow item_id p existing)) ->
  forall cs w, Forall P (_items w) -> Forall P (_items (exec cs w)).
Proof.
  intros Hcreate Hupdate.
  induction cs as [|c cs IH]; intros w Hw; simpl; [assumption|].
  apply IH.
  destruct (step_effect_holds c w)
    as [o _ _|uuid4 utcnow p _ Hok|utcnow item_id p existing _ Hok Hget
       |item_id _ _].
  - assumption.
  - apply dict_Forall_setitem; auto.
  - apply dict_Forall_setitem; [assumption|].
    apply Hupdate; [assumption|].
    apply dict_get_In in Hget. rewrite Forall_forall in Hw. now apply Hw.
  - now apply dict_Forall_delitem.
Qed.

(** X5. After every run from the empty store, every stored item passes the
    field constraints of [ItemBase]: its name has between 1 and 100
    characters and its description, when present, at most 500. *)
Theorem stored_items_are_valid (cs : list call) :
  Forall valid_entry (_items (after cs)) /\
  Forall (fun item =>
            (1 <= String.length (Item.name item) <= 100)%nat /\
            match Item.description item with
            | Some s => (String.length s <= 500)%nat
            | None => True
            end)
    (PyDict.values (_items (after cs))).
Proof.
  assert (H : Forall valid_entry (_items (after cs))).
  { apply exec_entries_invariant; [| |constructor].
    - intros uuid4 utcnow p Hok. exact Hok.
    - intros utcnow item_id p existing Hok _. exact Hok. }
  split; [exact H|].
  unfold PyDict.values. rewrite Forall_map.
  eapply Forall_impl; [|exact H].
  intros [k item]. unfold valid_entry, Schemas.ItemBase_ok, Schemas.name_ok,
    Schemas.description_ok. cbn [snd].
  rewrite !andb_true_iff. intros [[H1 H2] H3].
  apply Nat.leb_le in H1, H2.
  split; [lia|].
  destruct (Item.description item); [now apply Nat.leb_le | exact I].
Qed.

Lemma note_creation_quiet k c o acc :
  quiet o -> note_creation k (c, o) acc = acc.
Proof. destruct c, o; simpl; tauto. Qed.

Lemma step_creation c w (acc : string -> option datetime) :
  PyDict.wf (_items w) ->
  Forall (fun kv => Some (Item.created_at (snd kv)) = acc (fst kv))
    (_items w) ->
  Forall (fun kv => Some (Item.created_at (snd kv))
                    = note_creation (fst kv) (c, fst (step c w))
                        (acc (fst kv)))
    (_items (snd (step c w))).
Proof.
  intros Hwf Hacc. rewrite Forall_forall in Hacc.
  destruct (step_effect_holds c w)
    as [o Hq _|uuid4 utcnow p -> _|utcnow item_id p existing -> _ Hget
       |item_id -> _];
    apply Forall_forall; intros [k v] Hin.
  - rewrite note_creation_quiet by assumption. now apply Hacc.
  - apply dict_In_setitem in Hin; [|assumption]. simpl.
    destruct Hin as [[-> ->]|[Hne Hin]].
    + now rewrite String.eqb_refl.
    + apply not_eq_sym, String.eqb_neq in Hne. rewrite Hne.
      now apply (Hacc (k, v)).
  - apply dict_In_setitem in Hin; [|assumption]. simpl.
    destruct Hin as [[-> ->]|[Hne Hin]].
    + apply dict_get_In in Hget. now apply (Hacc (item_id, existing)).
    + now apply (Hacc (k, v)).
  - apply dict_In_delitem in Hin; [|assumption]. simpl.
    now apply (Hacc (k, v)).
Qed.

Lemma exec_creation cs : forall w (acc : string -> option datetime),
  store_ok w ->
  Forall (fun kv => Some (Item.created_at (snd kv)) = acc (fst kv))
    (_items w) ->
  Forall (fun kv => Some (Item.created_at (snd kv))
                    = creation_from (fst kv) (acc (fst kv)) (events cs w))
    (_items (exec cs w)).
Proof.
  induction cs as [|c cs IH]; intros w acc Hok Hacc; simpl; [assumption|].
  apply (IH (snd (step c w))
            (fun k => note_creation k (c, fst (step c w)) (acc k))).
  - now apply step_store_ok.
  - apply step_creation; [apply Hok | assumption].
Qed.

(** X6. After every run from the empty store, the [created_at] of a stored
    item is the clock reading taken by the last successful [create_item]
    under its id: no update, and no call on another id, changes it. *)
Theorem created_at_is_creation_reading (cs : list call) :
  Forall (fun kv => Some (Item.created_at (snd kv))
                    = creation_reading (events cs ExampleService.init)
                        (fst kv))
    (_items (after cs)).
Proof.
  apply (exec_creation cs (fun _ => None) init_store_ok). constructor.
Qed.

(* ================================================================== *)
(** ** Calls in sequence *)
(* ================================================================== *)

Lemma dict_delitem_setitem {V : Type} (d : PyDict.t V) k v :
  PyDict.delitem k (PyDict.setitem k v d) = PyDict.delitem k d.
Proof.
  induction d as [|[k0 v0] d IH]; simpl.
  - now rewrite String.eqb_refl.
  - destruct (String.eqb k k0) eqn:E; simpl; rewrite E; [reflexivity|].
    now rewrite IH.
Qed.

Lemma dict_setitem_setitem {V : Type} (d : PyDict.t V) k v1 v2 :
  PyDict.setitem k v2 (PyDict.setitem k v1 d) = PyDict.setitem k v2 d.
Proof.
  induction d as [|[k0 v0] d IH]; simpl.
  - now rewrite String.eqb_refl.
  - destruct (String.eqb k k0) eqn:E; simpl; rewrite E; [reflexivity|].
    now rewrite IH.
Qed.

(** X7. A successful [create_item] followed by [delete_item] on the
    generated id: the delete returns true and the map is the map from before
    the create without the entry of that id. So when the id was fresh the
    map is back to what it was, and when the id collided the item that was
    stored under it is gone as well. *)
Theorem create_then_delete
    (w : world) (uuid4 : string) (utcnow : datetime) (p : ItemCreate.t) :
  Schemas.ItemCreate_ok p = true ->
  exists i w1 w2,
    ExampleService.create_item uuid4 utcnow p w = (Ok i, w1) /\
    ExampleService.delete_item uuid4 w1 = (Ok true, w2) /\
    _items w2 = PyDict.delitem uuid4 (_items w) /\
    (PyDict.contains uuid4 (_items w) = false -> _items w2 = _items w).
Proof.
  intros Hok. do 3 eexists.
  split; [now apply create_item_valid|].
  split.
  { apply delete_item_present. simpl. unfold PyDict.contains.
    now rewrite dict_get_setitem_eq. }
  simpl. rewrite dict_delitem_setitem. split; [reflexivity|].
  intros Hfresh. now apply dict_delitem_absent, dict_contains_false.
Qed.

Lemma create_then_delete_witness :
  exists i w1 w2,
    ExampleService.create_item "id-2" 2000%Z test_item one_item_world
      = (Ok i, w1) /\
    ExampleService.delete_item "id-2" w1 = (Ok true, w2) /\
    _items w2 = _items one_item_world.
Proof.
  destruct (create_then_delete one_item_world "id-2" 2000%Z test_item eq_refl)
    as (i & w1 & w2 & Hc & Hd & _ & Hsame).
  exists i, w1, w2. repeat split; try assumption.
  apply Hsame. reflexivity.
Defined.

(** X8. The last update wins: an [update_item] with a valid payload returns
    the same item and leaves the same map whether or not another
    [update_item] on the same id, with any payload and any clock reading,
    ran just before it. In particular a chain of updates keeps the
    [created_at] of the item. *)
Theorem last_update_wins
    (w : world) (t1 t2 : datetime) (item_id : string)
    (p1 p2 : ItemCreate.t) :
  Schemas.ItemCreate_ok p2 = true ->
  fst (ExampleService.update_item t2 item_id p2
         (snd (ExampleService.update_item t1 item_id p1 w)))
  = fst (ExampleService.update_item t2 item_id p2 w) /\
  _items (snd (ExampleService.update_item t2 item_id p2
                 (snd (ExampleService.update_item t1 item_id p1 w))))
  = _items (snd (ExampleService.update_item t2 item_id p2 w)).
Proof.
  intros Hok2.
  destruct (PyDict.get item_id (_items w)) as [existing|] eqn:Hget.
  - destruct (Schemas.ItemCreate_ok p1) eqn:Hok1.
    + rewrite (update_item_present t1 _ _ _ Hget Hok1). simpl.
      rewrite (update_item_present t2 _ _ _ Hget Hok2). simpl.
      erewrite update_item_present;
        [|simpl; apply dict_get_setitem_eq | assumption].
      simpl. rewrite dict_setitem_setitem. split; reflexivity.
    + rewrite (update_item_invalid t1 _ _ _ Hget Hok1). split; reflexivity.
  - rewrite (update_item_absent t1 _ p1 _ Hget). split; reflexivity.
Qed.

Lemma last_update_wins_witness :
  fst (ExampleService.update_item 4000%Z "id-1" test_item
         (snd (ExampleService.update_item 3000%Z "id-1" nameless
                 one_item_world)))
  = fst (ExampleService.update_item 4000%Z "id-1" test_item one_item_world) /\
  _items (snd (ExampleService.update_item 4000%Z "id-1" test_item
                 (snd (ExampleService.update_item 3000%Z "id-1" nameless
                         one_item_world))))
  = _items (snd (ExampleService.update_item 4000%Z "id-1" test_item
                   one_item_world)).
Proof.
  apply (last_update_wins one_item_world 3000%Z 4000%Z "id-1" nameless
           test_item).
  reflexivity.
Defined.

Lemma delete_listed_keys (d : PyDict.t Item.t) : forall l,
  _items (exec (map DeleteItem (PyDict.keys d)) (mkWorld d l)) = [] /\
  outcomes (map DeleteItem (PyDict.keys d)) (mkWorld d l)
  = map (fun _ => Deleted true) d.
Proof.
  induction d as [|[k v] d IH]; intros l; simpl; [now split|].
  assert (Hin : PyDict.contains k (_items (mkWorld ((k, v) :: d) l)) = true).
  { unfold PyDict.contains. simpl. now rewrite String.eqb_refl. }
  unfold step, observe. rewrite (delete_item_present _ _ Hin). simpl.
  rewrite String.eqb_refl.
  destruct (IH (l ++ [Log_delete_item k])) as [-> ->]. now split.
Qed.

(** X9. In every state of the service, deleting the ids of the items that
    [list_items] returns, in the order of the listing, empties the store,
    and every one of these deletes returns true. *)
Theorem delete_all_listed (cs : list call) :
  exists items w',
    ExampleService.list_items (after cs) = (Ok items, w') /\
    outcomes (map DeleteItem (map Item.id items)) w'
    = map (fun _ => Deleted true) items /\
    fst (ExampleService.list_items
           (exec (map DeleteItem (map Item.id items)) w'))
    = Ok [].
Proof.
  destruct (exec_store_ok cs init_store_ok) as [_ Hid].
  fold (after cs) in Hid.
  do 2 eexists. split; [apply list_items_eq|].
  rewrite ids_of_values_are_keys by assumption.
  match goal with
  | |- context [exec _ (mkWorld ?d ?l)] =>
      destruct (delete_listed_keys d l) as [Hitems Hout]
  end.
  split.
  - rewrite Hout. unfold PyDict.values. now rewrite map_map.
  - rewrite list_items_eq. simpl. now rewrite Hitems.
Qed.

(* ================================================================== *)
(** ** The log *)
(* ================================================================== *)

Lemma step_log c w :
  exists e,
    log (snd (step c w))
    = log w ++ (if logs (fst (step c w)) then [e] else []).
Proof.
  destruct c as [|item_id|uuid4 utcnow p|utcnow item_id p|item_id];
    unfold step, observe.
  - rewrite list_items_eq. simpl. eauto.
  - rewrite get_item_eq. simpl. eauto.
  - destruct (Schemas.ItemCreate_ok p) eqn:Hok.
    + rewrite create_item_valid by assumption. simpl. eauto.
    + rewrite create_item_invalid by assumption. simpl.
      exists (Log_get_item uuid4). now rewrite app_nil_r.
  - destruct (PyDict.get item_id (_items w)) as [existing|] eqn:Hget.
    + destruct (Schemas.ItemCreate_ok p) eqn:Hok.
      * rewrite (update_item_present _ _ _ _ Hget Hok). simpl. eauto.
      * rewrite (update_item_invalid _ _ _ _ Hget Hok). simpl.
        exists (Log_get_item item_id). now rewrite app_nil_r.
    + rewrite update_item_absent by assumption. simpl.
      exists (Log_get_item item_id). now rewrite app_nil_r.
  - destruct (PyDict.contains item_id (_items w)) eqn:Hin.
    + rewrite delete_item_present by assumption. simpl. eauto.
    + rewrite delete_item_absent by assumption. simpl.
      exists (Log_get_item item_id). now rewrite app_nil_r.
Qed.

(** X10. The log only grows, and by one entry per call that does its work:
    after any list of calls from any world the log is the log from before
    followed by as many entries as there were calls that returned a listing,
    a lookup result, a created item, an updated item or true from a delete.
    A call that raised, an update that found nothing and a delete that
    returned false write nothing. *)
Theorem log_grows_by_working_calls (cs : list call) (w : world) :
  exists entries,
    log (exec cs w) = log w ++ entries /\
    List.length entries = List.length (filter logs (outcomes cs w)).
Proof.
  revert w. induction cs as [|c cs IH]; intros w; simpl.
  - exists []. now rewrite app_nil_r.
  - destruct (IH (snd (step c w))) as (entries & Hlog & Hlen).
    destruct (step_log c w) as [e He].
    rewrite Hlog, He.
    destruct (logs (fst (step c w))).
    + exists (e :: entries). rewrite <- app_assoc. simpl.
      split; [reflexivity | now rewrite Hlen].
    + exists entries. now rewrite app_nil_r.
Qed.

(* ================================================================== *)
(** ** The two timestamps of an item *)
(* ================================================================== *)

Lemma sorted_prefix (l1 l2 : list Z) :
  StronglySorted Z.le (l1 ++ l2) -> StronglySorted Z.le l1.
Proof.
  induction l1 as [|a l1 IH]; simpl; intros Hs; [constructor|].
  inversion Hs as [|? ? Hs' Hall]; subst.
  constructor; [auto|].
  apply Forall_app in Hall. tauto.
Qed.

Lemma step_updated_after_created c w R rest :
  StronglySorted Z.le ((R ++ reading c w) ++ rest) ->
  Forall (stamps_in R) (_items w) ->
  Forall updated_after_created (_items w) ->
  Forall updated_after_created (_items (snd (step c w))).
Proof.
  intros Hs HR Hw.
  destruct (step_effect_holds c w)
    as [o _ _|uuid4 utcnow p _ _|utcnow item_id p existing -> _ Hget
       |item_id _ _].
  - assumption.
  - apply dict_Forall_setitem; [assumption | exact I].
  - apply dict_Forall_setitem; [assumption|].
    unfold updated_after_created. simpl.
    apply sorted_prefix in Hs. simpl in Hs.
    unfold PyDict.contains in Hs. rewrite Hget in Hs.
    apply sorted_before_last in Hs. rewrite Forall_forall in Hs, HR.
    apply Hs. apply dict_get_In in Hget. now destruct (HR _ Hget).
  - now apply dict_Forall_delitem.
Qed.

Lemma exec_updated_after_created cs : forall w R,
  StronglySorted Z.le (R ++ clock_readings cs w) ->
  Forall (stamps_in R) (_items w) ->
  Forall updated_after_created (_items w) ->
  Forall updated_after_created (_items (exec cs w)).
Proof.
  induction cs as [|c cs IH]; intros w R Hs HR Hw; simpl; [assumption|].
  simpl in Hs. rewrite app_assoc in Hs.
  apply (IH (snd (step c w)) (R ++ reading c w)).
  - exact Hs.
  - now apply step_stamps.
  - eapply step_updated_after_created; eassumption.
Qed.

(** X11. In a run from the empty store whose clock readings never decrease,
    no stored item has an [updated_at] earlier than its [created_at]. *)
Theorem updated_at_not_before_created_at (cs : list call) :
  StronglySorted Z.le (clock_readings cs ExampleService.init) ->
  Forall updated_after_created (_items (after cs)).
Proof.
  intros Hs.
  apply (exec_updated_after_created cs ExampleService.init (R := []));
    [exact Hs | constructor | constructor].
Qed.

Lemma updated_at_not_before_created_at_witness :
  StronglySorted Z.le (clock_readings created_then_updated ExampleService.init)
  /\ Forall updated_after_created (_items (after created_then_updated)).
Proof.
  assert (Hs : StronglySorted Z.le
                 (clock_readings created_then_updated ExampleService.init)).
  { simpl. repeat constructor. lia. }
  split; [exact Hs|].
  exact (updated_at_not_before_created_at created_then_updated Hs).
Defined.
